(** * dividend_policy_checker: a shallow embedding and its contracts

    The development follows the package layout:
    - [PyStr], [PyVal]: the Python data the code manipulates (text as
      sequences of code points, parsed JSON as dynamically typed values);
    - [Net]: the one effect of the program, HTTP round trips, as a
      state-and-error monad over the log of issued requests;
    - [Dart]: dart.py ([_get_json], [build_corp_index], [search_filings]);
    - [Krx]: krx.py ([fetch_kospi200], [normalize_constituents]);
    - [Checker]: checker.py ([_matches_policy], [evaluate_company]). *)

From Stdlib Require Import ZArith NArith Lia String Ascii.
From Stdlib Require Import Floats.SpecFloat.
From stdpp Require Import base option list gmap.

Set Warnings "-register-all".
Local Open Scope Z_scope.

(* ===================================================================== *)
(** * Python text *)
(* ===================================================================== *)

(** A Python [str] is a sequence of Unicode code points. *)
Abbreviation pystr := (list N).

Module PyStr.

(** Source literals are written as UTF-8 text and decoded once; [py] is
    only a way to write literals and is not part of the program. *)
Fixpoint utf8_decode (bs : list N) (pending acc : N) : pystr :=
  match bs with
  | [] => []
  | b :: bs' =>
      if (pending =? 0)%N then
        if (b <? 128)%N then b :: utf8_decode bs' 0%N 0%N
        else if (b <? 224)%N then utf8_decode bs' 1%N (N.land b 31)
        else if (b <? 240)%N then utf8_decode bs' 2%N (N.land b 15)
        else utf8_decode bs' 3%N (N.land b 7)
      else
        let acc' := (acc * 64 + N.land b 63)%N in
        if (pending =? 1)%N then acc' :: utf8_decode bs' 0%N 0%N
        else utf8_decode bs' (pending - 1)%N acc'
  end.

Definition py (s : string) : pystr :=
  utf8_decode (map N_of_ascii (list_ascii_of_string s)) 0%N 0%N.

(** [bool(s)] for a string. *)
Definition nonempty (s : pystr) : bool :=
  match s with [] => false | _ :: _ => true end.

(** The code points for which [str.isspace] holds; [str.strip()] removes
    them from both ends. *)
Definition whitespace : list N :=
  [9; 10; 11; 12; 13; 28; 29; 30; 31; 32; 133; 160; 5760;
   8192; 8193; 8194; 8195; 8196; 8197; 8198; 8199; 8200; 8201; 8202;
   8232; 8233; 8239; 8287; 12288]%N.

Definition isspace (c : N) : bool := bool_decide (c ∈ whitespace).

Fixpoint lstrip (s : pystr) : pystr :=
  match s with
  | [] => []
  | c :: s' => if isspace c then lstrip s' else s
  end.

Definition rstrip (s : pystr) : pystr := reverse (lstrip (reverse s)).

Definition strip (s : pystr) : pystr := rstrip (lstrip s).

(** [needle in hay] for two strings: [needle] occurs as a contiguous run
    of code points; every position of [hay] is tried from the left. *)
Fixpoint startswith (needle hay : pystr) : bool :=
  match needle, hay with
  | [], _ => true
  | _ :: _, [] => false
  | a :: needle', b :: hay' => (a =? b)%N && startswith needle' hay'
  end.

Fixpoint contains (needle hay : pystr) : bool :=
  startswith needle hay
  || match hay with
     | [] => false
     | _ :: hay' => contains needle hay'
     end.

(** The mathematical reading of "is a literal substring of". *)
Definition substring (needle hay : pystr) : Prop :=
  ∃ before after, hay = before ++ needle ++ after.

(** Lexicographic order on code points, the order of [sorted] on strings. *)
Fixpoint leb (a b : pystr) : bool :=
  match a, b with
  | [], _ => true
  | _ :: _, [] => false
  | x :: a', y :: b' => (x <? y)%N || ((x =? y)%N && leb a' b')
  end.

Fixpoint insert_sorted (x : pystr) (l : list pystr) : list pystr :=
  match l with
  | [] => [x]
  | y :: l' => if leb x y then x :: l else y :: insert_sorted x l'
  end.

Definition sorted (l : list pystr) : list pystr :=
  foldr insert_sorted [] l.

End PyStr.

Import PyStr.

(* ===================================================================== *)
(** * Python values and dictionaries *)
(* ===================================================================== *)

(** A dictionary in insertion order.  [json.loads] and dict displays give
    each key once; [dict_get] reads the first binding. *)
Abbreviation dict V := (list (pystr * V)).

Fixpoint dict_get {V} (k : pystr) (d : dict V) : option V :=
  match d with
  | [] => None
  | (k', v) :: d' => if decide (k = k') then Some v else dict_get k d'
  end.

(** [d[k] = v]: a present key keeps its position, a new key goes last. *)
Fixpoint dict_set {V} (k : pystr) (v : V) (d : dict V) : dict V :=
  match d with
  | [] => [(k, v)]
  | (k', v') :: d' =>
      if decide (k = k') then (k, v) :: d' else (k', v') :: dict_set k v d'
  end.

Definition dict_keys {V} (d : dict V) : list pystr := map fst d.

(** [k in d] *)
Definition dict_mem {V} (k : pystr) (d : dict V) : bool :=
  match dict_get k d with Some _ => true | None => false end.

(** Results of [Dict[str, str].get]: a string, or [None]. *)
Definition opt_truthy (x : option pystr) : bool :=
  match x with
  | Some (_ :: _) => true
  | Some [] | None => false
  end.

(** [a or b] where both are optional strings. *)
Definition opt_or (a b : option pystr) : option pystr :=
  if opt_truthy a then a else b.

(** [a or "literal"] for an optional string [a]. *)
Definition or_str (a : option pystr) (literal : pystr) : pystr :=
  match a with
  | Some (c :: s) => c :: s
  | Some [] | None => literal
  end.

Module PyVal.

(** What [json.loads] can produce. *)
Inductive pyval : Type :=
| PNone
| PBool (b : bool)
| PInt (z : Z)
| PFloat (f : spec_float)
| PStr (s : pystr)
| PList (l : list pyval)
| PDict (d : dict pyval).

(** Exceptions the interpreter raises on ill-typed data; their message
    text is not modelled. *)
Inductive builtin_exn := TypeError | AttributeError | OverflowError | ConversionError.

(** Failures of [urlopen], [read().decode] and [json.loads]. *)
Inductive io_failure := URLError | HTTPError (code : Z) | DecodeError | JSONDecodeError.

(** Exceptions.  A formatted message is represented by the values
    interpolated into it: [DartError status message] stands for
    [DartError(f"DART error {status}: {message}")] and [KrxError keys]
    for [KrxError(f"Unexpected KRX response keys: {keys}")]. *)
Inductive exn : Type :=
| ValueError (msg : pystr)
| DartError (status message : pyval)
| KrxError (keys : list pystr)
| Builtin (e : builtin_exn)
| Transport (e : io_failure).

Abbreviation result A := (exn + A)%type.

(** [bool(v)] *)
Definition truthy (v : pyval) : bool :=
  match v with
  | PNone => false
  | PBool b => b
  | PInt z => negb (z =? 0)
  | PFloat (S754_zero _) => false
  | PFloat _ => true
  | PStr s => nonempty s
  | PList l => match l with [] => false | _ => true end
  | PDict d => match d with [] => false | _ => true end
  end.

(** [a or b] *)
Definition py_or (a b : pyval) : pyval := if truthy a then a else b.

(** [d.get(k)] and [d.get(k, default)] *)
Definition get (d : dict pyval) (k : pystr) : pyval :=
  default PNone (dict_get k d).

Definition get_default (d : dict pyval) (k : pystr) (dflt : pyval) : pyval :=
  default dflt (dict_get k d).

(** Iteration, as done by [list.extend(v)] and [list(v)]. *)
Definition iterate (v : pyval) : result (list pyval) :=
  match v with
  | PList l => inr l
  | PStr s => inr (map (λ c, PStr [c]) s)
  | PDict d => inr (map PStr (dict_keys d))
  | PNone | PBool _ | PInt _ | PFloat _ => inl (Builtin TypeError)
  end.

(** Truncation of a finite binary float towards zero. *)
Definition float_trunc (s : bool) (m : positive) (e : Z) : Z :=
  let mag := if 0 <=? e then Z.shiftl (Z.pos m) e else Z.shiftr (Z.pos m) (- e) in
  if s then - mag else mag.

Section Int.
(** [int(s)] on a string depends on the interpreter's Unicode tables
    (decimal digits of every script); it is a parameter. *)
Variable int_of_str : pystr → option Z.

(** [int(v)] *)
Definition py_int (v : pyval) : result Z :=
  match v with
  | PInt z => inr z
  | PBool b => inr (if b then 1 else 0)
  | PFloat (S754_zero _) => inr 0
  | PFloat (S754_finite s m e) => inr (float_trunc s m e)
  | PFloat (S754_infinity _) => inl (Builtin OverflowError)
  | PFloat S754_nan => inl (Builtin ConversionError)
  | PStr s =>
      match int_of_str s with
      | Some z => inr z
      | None => inl (Builtin ConversionError)
      end
  | PNone | PList _ | PDict _ => inl (Builtin TypeError)
  end.

End Int.

(** [v.get(k, default)]: only dictionaries have the method. *)
Definition method_get (v : pyval) (k : pystr) (dflt : pyval) : result pyval :=
  match v with
  | PDict d => inr (get_default d k dflt)
  | _ => inl (Builtin AttributeError)
  end.

(** [x == s] for a string [s]. *)
Definition eq_str (x : pyval) (s : pystr) : bool :=
  match x with
  | PStr t => bool_decide (t = s)
  | _ => false
  end.

(** [needle in v] for a string [needle]: substring test on a string,
    membership on a list, key test on a dictionary. *)
Definition str_in (needle : pystr) (v : pyval) : result bool :=
  match v with
  | PStr s => inr (contains needle s)
  | PList l => inr (existsb (λ x, eq_str x needle) l)
  | PDict d => inr (dict_mem needle d)
  | PNone | PBool _ | PInt _ | PFloat _ => inl (Builtin TypeError)
  end.

End PyVal.

Import PyVal.

(* ===================================================================== *)
(** * The network *)
(* ===================================================================== *)

Module Net.

Inductive http_method := GET | POST.

(** One call of [request.urlopen]: method, URL, the parameters that are
    URL-encoded (in dictionary order) and the socket timeout. *)
Record request := Request {
  req_method : http_method;
  req_url : pystr;
  req_params : dict pyval;
  req_timeout : Z
}.

(** What lies outside the program: the services, which answer a request
    with a parsed JSON object or fail; the interpreter's [int] on
    strings; the calendar date [date.today().strftime("%Y%m%d")]. *)
Record world := World {
  http_json : request → io_failure + dict pyval;
  int_of_str : pystr → option Z;
  today : pystr
}.

(** Computations thread the log of requests issued so far and end with a
    value or an exception; [None] is a loop that ran out of fuel. *)
Definition M (A : Type) : Type :=
  list request → option (result A * list request).

Definition ret {A} (a : A) : M A := λ log, Some (inr a, log).

Definition raise {A} (e : exn) : M A := λ log, Some (inl e, log).

Definition bind {A B} (m : M A) (k : A → M B) : M B :=
  λ log,
    match m log with
    | None => None
    | Some (inl e, log') => Some (inl e, log')
    | Some (inr a, log') => k a log'
    end.

Definition lift {A} (r : result A) : M A :=
  match r with
  | inl e => raise e
  | inr a => ret a
  end.

Definition out_of_fuel {A} : M A := λ _, None.

(** [urlopen(req)] followed by [read().decode] and [json.loads]: the
    request is logged, then the service's answer is delivered. *)
Definition fetch_json (w : world) (r : request) : M (dict pyval) :=
  λ log,
    match http_json w r with
    | inl e => Some (inl (Transport e), log ++ [r])
    | inr data => Some (inr data, log ++ [r])
    end.

End Net.

Import Net.

Notation "'let*' x ':=' m 'in' k" := (Net.bind m (λ x, k))
  (at level 10, x name, m at level 100, k at level 200, only parsing).

(* ===================================================================== *)
(** * dart.py *)
(* ===================================================================== *)

Module Dart.

Definition CORP_CODE_URL : pystr := py "https://opendart.fss.or.kr/api/corpCode.xml".
Definition LIST_URL : pystr := py "https://opendart.fss.or.kr/api/list.json".

Record DartClient := { api_key : pystr }.

(** [DartClient.__init__] *)
Definition new_client (key : pystr) : result DartClient :=
  if negb (nonempty key) then inl (ValueError (py "DART API key is required"))
  else inr {| api_key := key |}.

(** [DartClient.build_corp_index]: a registry entry is a [Dict[str, str]];
    the loop body is [index_entry]. *)
Definition index_entry (index : gmap pystr (dict pystr)) (entry : dict pystr)
  : gmap pystr (dict pystr) :=
  let stock_code := strip (or_str (dict_get (py "stock_code") entry) []) in
  let corp_code := strip (or_str (dict_get (py "corp_code") entry) []) in
  if negb (nonempty stock_code) || negb (nonempty corp_code) then index
  else <[stock_code := entry]> index.

Definition build_corp_index (codes : list (dict pystr)) : gmap pystr (dict pystr) :=
  foldl index_entry ∅ codes.

(** An [xml.etree.ElementTree.Element], as far as the code looks at it:
    tag, text and children in document order. *)
Inductive element : Type :=
| Element (tag : pystr) (text : option pystr) (children : list element).

Definition element_tag (e : element) : pystr :=
  match e with Element tag _ _ => tag end.

Definition element_children (e : element) : list element :=
  match e with Element _ _ children => children end.

(** [tree.iter()]: the element itself, then its descendants, in document
    order; [tree.iter(tag)] keeps those with the given tag. *)
Fixpoint iter_all (e : element) : list element :=
  match e with
  | Element _ _ children =>
      e :: (fix descend (l : list element) : list element :=
              match l with
              | [] => []
              | child :: l' => iter_all child ++ descend l'
              end) children
  end.

Definition iter (tag : pystr) (e : element) : list element :=
  filter (λ x, element_tag x = tag) (iter_all e).

(** [element.findtext(tag, default="")]: the text of the first child with
    this tag, the empty string when that child has no text, the default
    when there is no such child. *)
Fixpoint findtext_in (children : list element) (tag dflt : pystr) : pystr :=
  match children with
  | [] => dflt
  | Element tag' text _ :: rest =>
      if decide (tag' = tag) then default [] text
      else findtext_in rest tag dflt
  end.

Definition findtext (e : element) (tag dflt : pystr) : pystr :=
  findtext_in (element_children e) tag dflt.

(** The record that [download_corp_codes] builds from one "list" element. *)
Definition corp_record (e : element) : dict pystr :=
  [ (py "corp_code", strip (findtext e (py "corp_code") []));
    (py "corp_name", strip (findtext e (py "corp_name") []));
    (py "stock_code", strip (findtext e (py "stock_code") []));
    (py "modify_date", strip (findtext e (py "modify_date") [])) ].

(** [download_corp_codes] from the parsed document on (the loop over
    [tree.iter("list")]); the download, the archive and the XML parser
    are outside the model. *)
Definition corp_codes_of_tree (tree : element) : list (dict pystr) :=
  foldl (λ result e, result ++ [corp_record e]) [] (iter (py "list") tree).

Section Client.
Context (w : world) (self : DartClient).

(** [status not in ("000", None)] *)
Definition bad_status (status : pyval) : bool :=
  negb (eq_str status (py "000")
        || match status with PNone => true | _ => false end).

(** [DartClient._get_json] *)
Definition _get_json (url : pystr) (params : dict pyval) : M (dict pyval) :=
  let params := dict_set (py "crtfc_key") (PStr (api_key self)) params in
  let* data := fetch_json w (Request GET url params 20) in
  let status := get data (py "status") in
  if bad_status status then
    let message := py_or (get data (py "message")) (PStr (py "Unexpected response")) in
    raise (DartError status message)
  else ret data.

Section Search.
Context (corp_code start_date end_date : pystr).
Context (detail_types : option pystr) (page_count : Z).

(** The [params] dictionary built at the top of the loop body. *)
Definition list_params (page : Z) : dict pyval :=
  let params :=
    [ (py "corp_code", PStr corp_code);
      (py "bgn_de", PStr start_date);
      (py "end_de", PStr end_date);
      (py "page_no", PInt page);
      (py "page_count", PInt page_count) ] in
  match detail_types with
  | Some (c :: t) => dict_set (py "pblntf_detail_ty") (PStr (c :: t)) params
  | Some [] | None => params
  end.

(** The [while True] loop of [search_filings]; one unit of fuel per
    iteration. *)
Fixpoint search_loop (fuel : nat) (page : Z) (filings : list pyval)
  : M (list pyval) :=
  match fuel with
  | O => out_of_fuel
  | S fuel' =>
      let* data := _get_json LIST_URL (list_params page) in
      let* items := lift (iterate (py_or (get data (py "list")) (PList []))) in
      let filings := filings ++ items in
      let* total_pages :=
        lift (py_int (int_of_str w)
                (py_or (get data (py "total_page")) (PInt 1))) in
      if page >=? total_pages then ret filings
      else search_loop fuel' (page + 1) filings
  end.

(** [DartClient.search_filings] *)
Definition search_filings (fuel : nat) : M (list pyval) :=
  if negb (nonempty corp_code) then raise (ValueError (py "corp_code is required"))
  else search_loop fuel 1 [].

(** Vocabulary for the contracts of the search. *)

(** The request that [_get_json] sends for [page]. *)
Definition page_request (page : Z) : request :=
  Request GET LIST_URL
    (dict_set (py "crtfc_key") (PStr (api_key self)) (list_params page)) 20.

(** What a response contributes: [data.get("list") or []], iterated. *)
Definition page_list (data : dict pyval) : result (list pyval) :=
  iterate (py_or (get data (py "list")) (PList [])).

(** The total it declares: [int(data.get("total_page") or 1)]. *)
Definition declared_total (data : dict pyval) : result Z :=
  py_int (int_of_str w) (py_or (get data (py "total_page")) (PInt 1)).

(** The service answers the request for [page] with [data], whose status
    is the success sentinel or absent. *)
Definition page_success (page : Z) (data : dict pyval) : Prop :=
  http_json w (page_request page) = inr data
  ∧ bad_status (get data (py "status")) = false.

(** ... and [data] carries [items] and declares [total]. *)
Definition page_ok (page : Z) (items : list pyval) (total : Z) : Prop :=
  ∃ data, page_success page data
          ∧ page_list data = inr items
          ∧ declared_total data = inr total.

End Search.
End Client.

(** The failures that the page loop can end with: a transport failure,
    the error of a refused response, an error of the interpreter. *)
Definition upstream_failure (e : exn) : Prop :=
  (∃ failure, e = Transport failure)
  ∨ (∃ status message,
       e = DartError status message ∧ status ≠ PStr (py "000") ∧ status ≠ PNone)
  ∨ (∃ b, e = Builtin b).

(** The ticker and code that [build_corp_index] reads from an entry, and
    whether it indexes the entry. *)
Definition entry_ticker (entry : dict pystr) : pystr :=
  strip (or_str (dict_get (py "stock_code") entry) []).

Definition entry_code (entry : dict pystr) : pystr :=
  strip (or_str (dict_get (py "corp_code") entry) []).

Definition indexed (entry : dict pystr) : bool :=
  nonempty (entry_ticker entry) && nonempty (entry_code entry).

End Dart.

(* ===================================================================== *)
(** * krx.py *)
(* ===================================================================== *)

Module Krx.

Definition KRX_ENDPOINT : pystr := py "https://data.krx.co.kr/comm/bldAttendant/getJsonData.cmd".
Definition _KRX_BLD : pystr := py "dbms/MDC/STAT/standard/MDCSTAT00601".

Section Fetch.
Context (w : world).

(** [_post_json] with its default [timeout=15] *)
Definition _post_json (payload : dict pyval) : M (dict pyval) :=
  fetch_json w (Request POST KRX_ENDPOINT payload 15).

(** [fetch_kospi200] *)
Definition fetch_kospi200 (trade_date : option pystr) : M (list pyval) :=
  let trade_date :=
    match trade_date with
    | None => today w
    | Some d => d
    end in
  let payload :=
    [ (py "bld", PStr _KRX_BLD);
      (py "trdDd", PStr trade_date);
      (py "idxIndCd", PStr (py "1")) ] in
  let* data := _post_json payload in
  if negb (dict_mem (py "OutBlock_1") data) then
    raise (KrxError (sorted (dict_keys data)))
  else lift (iterate (py_or (get data (py "OutBlock_1")) (PList []))).

(** The request that [fetch_kospi200] sends. *)
Definition constituents_request (trade_date : option pystr) : request :=
  Request POST KRX_ENDPOINT
    [ (py "bld", PStr _KRX_BLD);
      (py "trdDd", PStr (match trade_date with None => today w | Some d => d end));
      (py "idxIndCd", PStr (py "1")) ]
    15.

End Fetch.

(** The body of the loop of [normalize_constituents]: a raw row is a
    [Dict[str, str]]. *)
Definition normalize_row (normalized : list (dict pystr)) (entry : dict pystr)
  : list (dict pystr) :=
  let stock_code :=
    opt_or (opt_or (dict_get (py "ISU_SRT_CD") entry)
                   (dict_get (py "TDD_CLSPRC") entry))
           (dict_get (py "CMP_CD") entry) in
  let name :=
    opt_or (opt_or (dict_get (py "ISU_ABBRV") entry)
                   (dict_get (py "CMP_KOR") entry))
           (dict_get (py "KOR_SHRT_NM") entry) in
  if negb (opt_truthy stock_code) || negb (opt_truthy name) then normalized
  else
    normalized ++
      [ [ (py "stock_code", strip (default [] stock_code));
          (py "name", strip (default [] name));
          (py "market",
            or_str (opt_or (dict_get (py "MKT_ID") entry)
                           (dict_get (py "MKT_NM") entry))
                   (py "KOSPI")) ] ].

(** Vocabulary for the contracts of the normalization: the three
    expressions that [normalize_row] computes from a raw row. *)
Definition raw_ticker (entry : dict pystr) : option pystr :=
  opt_or (opt_or (dict_get (py "ISU_SRT_CD") entry)
                 (dict_get (py "TDD_CLSPRC") entry))
         (dict_get (py "CMP_CD") entry).

Definition raw_name (entry : dict pystr) : option pystr :=
  opt_or (opt_or (dict_get (py "ISU_ABBRV") entry)
                 (dict_get (py "CMP_KOR") entry))
         (dict_get (py "KOR_SHRT_NM") entry).

Definition row_market (entry : dict pystr) : pystr :=
  or_str (opt_or (dict_get (py "MKT_ID") entry) (dict_get (py "MKT_NM") entry))
         (py "KOSPI").

(** [normalize_constituents] *)
Definition normalize_constituents (entries : list (dict pystr)) : list (dict pystr) :=
  foldl normalize_row [] entries.

End Krx.

(* ===================================================================== *)
(** * checker.py *)
(* ===================================================================== *)

Module Checker.

Definition DEFAULT_KEYWORDS : list pystr :=
  [ py "배당기준일";
    py "배당 기준일";
    py "배당액 공시";
    py "정관변경";
    py "정관 변경";
    py "배당 관련 정관" ].

Record CompanyResult := {
  corp_code : pystr;
  corp_name : pystr;
  stock_code : pystr;
  has_post_dividend_provision : bool;
  matching_reports : list pyval
}.

Record DividendPolicyChecker := {
  dart : Dart.DartClient;
  start_date : pystr;
  end_date : pystr;
  keywords : list pystr
}.

(** [DividendPolicyChecker.__init__] with the default [keywords]. *)
Definition new_checker (client : Dart.DartClient) (start_date end_date : pystr)
  : DividendPolicyChecker :=
  {| dart := client; start_date := start_date; end_date := end_date;
     keywords := DEFAULT_KEYWORDS |}.

(** [any(keyword in report_name for keyword in keywords)]: the keywords
    are tried in order and the first hit ends the scan. *)
Fixpoint any_keyword_in (keywords : list pystr) (report_name : pyval) : result bool :=
  match keywords with
  | [] => inr false
  | keyword :: rest =>
      match str_in keyword report_name with
      | inl e => inl e
      | inr true => inr true
      | inr false => any_keyword_in rest report_name
      end
  end.

(** [DividendPolicyChecker._matches_policy] *)
Definition _matches_policy (self : DividendPolicyChecker) (report_name : pyval)
  : result bool :=
  any_keyword_in (keywords self) report_name.

(** [[item for item in filings
      if self._matches_policy(item.get("report_nm", ""))]] *)
Fixpoint select_matches (self : DividendPolicyChecker) (filings : list pyval)
  : result (list pyval) :=
  match filings with
  | [] => inr []
  | item :: rest =>
      match method_get item (py "report_nm") (PStr []) with
      | inl e => inl e
      | inr report_name =>
          match _matches_policy self report_name with
          | inl e => inl e
          | inr hit =>
              match select_matches self rest with
              | inl e => inl e
              | inr matches => inr (if hit then item :: matches else matches)
              end
          end
      end
  end.

(** Vocabulary for the contract of the evaluation: the title of a
    disclosure item, when the item is a dictionary whose "report_nm" is a
    string or missing, and whether that title holds a configured keyword. *)
Definition title_of (item : pyval) : option pystr :=
  match item with
  | PDict d =>
      match get_default d (py "report_nm") (PStr []) with
      | PStr title => Some title
      | _ => None
      end
  | _ => None
  end.

Definition title_matches (self : DividendPolicyChecker) (item : pyval) : bool :=
  match title_of item with
  | Some title => existsb (λ keyword, contains keyword title) (keywords self)
  | None => false
  end.

(** [bool(matches)] *)
Definition list_truthy {A} (l : list A) : bool :=
  match l with [] => false | _ :: _ => true end.

(** [DividendPolicyChecker.evaluate_company]; [fuel] bounds the page loop
    of the search it runs. *)
Definition evaluate_company (w : world) (self : DividendPolicyChecker)
    (corp : dict pystr) (fuel : nat) : M CompanyResult :=
  let corp_code := or_str (dict_get (py "corp_code") corp) [] in
  let corp_name :=
    or_str (opt_or (dict_get (py "corp_name") corp) (dict_get (py "name") corp)) [] in
  let stock_code := or_str (dict_get (py "stock_code") corp) [] in
  let* filings :=
    Dart.search_filings w (dart self) corp_code (start_date self) (end_date self)
      (Some (py "B001,I001")) 100 fuel in
  let* matches := lift (select_matches self filings) in
  ret {| corp_code := corp_code;
         corp_name := corp_name;
         stock_code := stock_code;
         has_post_dividend_provision := list_truthy matches;
         matching_reports := matches |}.

(** [DividendPolicyChecker.evaluate_all]: the companies in order, every
    search with its own [fuel]; an exception leaves the loop. *)
Fixpoint evaluate_all_loop (w : world) (self : DividendPolicyChecker)
    (corporations : list (dict pystr)) (results : list CompanyResult)
    (fuel : nat) : M (list CompanyResult) :=
  match corporations with
  | [] => ret results
  | corp :: rest =>
      let* r := evaluate_company w self corp fuel in
      evaluate_all_loop w self rest (results ++ [r]) fuel
  end.

Definition evaluate_all (w : world) (self : DividendPolicyChecker)
    (corporations : list (dict pystr)) (fuel : nat) : M (list CompanyResult) :=
  evaluate_all_loop w self corporations [] fuel.

End Checker.

(* ===================================================================== *)
(** * main.py: the join of constituents and registry *)
(* ===================================================================== *)

Module Main.

(** [d[k]] on a [Dict[str, str]] raises [KeyError] for a missing key. *)
Inductive key_error := KeyError (key : pystr).

Definition subscript (d : dict pystr) (k : pystr) : key_error + pystr :=
  match dict_get k d with
  | Some v => inr v
  | None => inl (KeyError k)
  end.

(** [a or b] for two strings. *)
Definition str_or (a b : pystr) : pystr := if nonempty a then a else b.

(** The body of the join loop of [main]: [match] is looked up by the
    constituent's ticker; a missing or empty [match] skips the row. *)
Definition enrich_row (corp_index : gmap pystr (dict pystr))
    (enriched : list (dict pystr)) (item : dict pystr)
  : key_error + list (dict pystr) :=
  match subscript item (py "stock_code") with
  | inl e => inl e
  | inr ticker =>
      match corp_index !! ticker with
      | None | Some [] => inr enriched
      | Some ((_ :: _) as found) =>
          match subscript found (py "corp_code") with
          | inl e => inl e
          | inr code =>
              match subscript found (py "corp_name") with
              | inl e => inl e
              | inr registry_name =>
                  let name :=
                    str_or registry_name (default [] (dict_get (py "name") item)) in
                  inr (enriched ++
                         [ dict_set (py "corp_name") name
                             (dict_set (py "corp_code") code item) ])
              end
          end
      end
  end.

(** The loop [for item in constituents] that builds [enriched]. *)
Fixpoint enrich_loop (corp_index : gmap pystr (dict pystr))
    (constituents : list (dict pystr)) (enriched : list (dict pystr))
  : key_error + list (dict pystr) :=
  match constituents with
  | [] => inr enriched
  | item :: rest =>
      match enrich_row corp_index enriched item with
      | inl e => inl e
      | inr enriched' => enrich_loop corp_index rest enriched'
      end
  end.

Definition enrich (corp_index : gmap pystr (dict pystr))
    (constituents : list (dict pystr)) : key_error + list (dict pystr) :=
  enrich_loop corp_index constituents [].

End Main.

(* ===================================================================== *)
(** * Fake services used to exercise the contracts *)
(* ===================================================================== *)

Module Examples.

Definition client : Dart.DartClient := {| Dart.api_key := py "test-key" |}.

(** [int] on strings made of ASCII digits only; no example below feeds a
    string to [int]. *)
Definition int_of_digits (s : pystr) : option Z :=
  match s with
  | [] => None
  | _ :: _ =>
      foldl (λ acc c,
               match acc with
               | Some z =>
                   if ((48 <=? c) && (c <=? 57))%N
                   then Some (10 * z + Z.of_N (c - 48))
                   else None
               | None => None
               end) (Some 0) s
  end.

(** A disclosure service that answers by page number alone. *)
Definition paged (pages : Z → io_failure + dict pyval) (r : request)
  : io_failure + dict pyval :=
  match dict_get (py "page_no") (req_params r) with
  | Some (PInt page) => pages page
  | _ => inl URLError
  end.

Definition world_of (service : request → io_failure + dict pyval) : world :=
  World service int_of_digits (py "20240102").

Definition filing (title : string) : pyval :=
  PDict [ (py "rcept_no", PStr (py "20240101000001"));
          (py "report_nm", PStr (py title)) ].

Definition ok_page (total : Z) (items : list pyval) : io_failure + dict pyval :=
  inr [ (py "status", PStr (py "000"));
        (py "message", PStr (py "정상"));
        (py "total_page", PInt total);
        (py "list", PList items) ].

(** The search of the examples and the request it sends for a page. *)
Definition search (w : world) (fuel : nat) : M (list pyval) :=
  Dart.search_filings w client (py "00126380") (py "20230101") (py "20231231")
    (Some (py "B001,I001")) 100 fuel.

Definition request_for (page : Z) : request :=
  Dart.page_request client (py "00126380") (py "20230101") (py "20231231")
    (Some (py "B001,I001")) 100 page.

(** Every page declares three pages. *)
Definition three_pages : world :=
  world_of (paged (λ page,
    if page =? 1 then ok_page 3 [filing "A1"; filing "A2"]
    else if page =? 2 then ok_page 3 [filing "B1"]
    else if page =? 3 then ok_page 3 [filing "C1"]
    else inl (HTTPError 404))).

(** Page 1 declares three pages; page 2 carries no [total_page]. *)
Definition total_dropped : world :=
  world_of (paged (λ page,
    if page =? 1 then ok_page 3 [filing "A1"]
    else if page =? 2 then
      inr [ (py "status", PStr (py "000")); (py "list", PList [filing "B1"]) ]
    else ok_page 3 [filing "C1"])).

(** Page 2 is refused with status "013". *)
Definition page2_refused : world :=
  world_of (paged (λ page,
    if page =? 1 then ok_page 3 [filing "A1"]
    else if page =? 2 then
      inr [ (py "status", PStr (py "013")); (py "message", PStr (py "no data")) ]
    else ok_page 3 [filing "C1"])).

(** A single answer whose [total_page] is 0. *)
Definition zero_total : world :=
  world_of (paged (λ _, ok_page 0 [filing "A1"])).

(** Three pages, the second with a null [list]. *)
Definition null_list_page2 : world :=
  world_of (paged (λ page,
    if page =? 2 then
      inr [ (py "status", PStr (py "000")); (py "total_page", PInt 3);
            (py "list", PNone) ]
    else if page =? 1 then ok_page 3 [filing "A1"]
    else ok_page 3 [filing "C1"])).

(** One page with the two disclosures of the evaluation scenario. *)
Definition two_titles : world :=
  world_of (paged (λ _,
    ok_page 1 [filing "정관변경에 관한 사항"; filing "실적발표"])).

(** The checker and the company record of the evaluation scenario. *)
Definition checker : Checker.DividendPolicyChecker :=
  Checker.new_checker client (py "20230101") (py "20231231").

Definition sample_corp : dict pystr :=
  [ (py "stock_code", py "005930"); (py "name", py "Sample");
    (py "market", py "KOSPI"); (py "corp_code", py "00126380");
    (py "corp_name", py "Sample Co") ].

(** Constituent services: with and without the result block. *)
Definition krx_row : pyval :=
  PDict [ (py "ISU_SRT_CD", PStr (py "005930")); (py "ISU_ABBRV", PStr (py "Sample")) ].

Definition krx_rows_data : dict pyval :=
  [ (py "OutBlock_1", PList [krx_row]);
    (py "CURRENT_DATETIME", PStr (py "2024.01.02")) ].

Definition krx_changed_data : dict pyval :=
  [ (py "output", PList [krx_row]);
    (py "CURRENT_DATETIME", PStr (py "2024.01.02")) ].

Definition krx_rows : world := world_of (λ _, inr krx_rows_data).

Definition krx_changed : world := world_of (λ _, inr krx_changed_data).

(** A raw constituent row whose ticker is a single space. *)
Definition blank_ticker_row : dict pystr :=
  [ (py "ISU_SRT_CD", py " "); (py "ISU_ABBRV", py "Sample") ].

(** Registry entries: two share the ticker, one has no code. *)
Definition registry : list (dict pystr) :=
  [ [ (py "corp_code", py "00126380"); (py "corp_name", py "Old Co");
      (py "stock_code", py "005930") ];
    [ (py "corp_code", py "00999999"); (py "corp_name", py "New Co");
      (py "stock_code", py "005930") ];
    [ (py "corp_code", py ""); (py "corp_name", py "No Code");
      (py "stock_code", py "000660") ] ].

(** Every page says that one more page follows. *)
Definition endless : world :=
  world_of (paged (λ page, ok_page (page + 1) [filing "again"])).

(** The connection drops on page 2. *)
Definition page2_down : world :=
  world_of (paged (λ page,
    if page =? 1 then ok_page 3 [filing "A1"] else inl URLError)).

(** Page 2 carries a number where the list should be. *)
Definition list_is_number : world :=
  world_of (paged (λ page,
    if page =? 1 then ok_page 3 [filing "A1"]
    else inr [ (py "status", PStr (py "000")); (py "total_page", PInt 3);
               (py "list", PInt 7) ])).

(** One page; the second disclosure has a null title. *)
Definition untitled : pyval :=
  PDict [ (py "rcept_no", PStr (py "20240101000002")); (py "report_nm", PNone) ].

Definition null_title : world :=
  world_of (paged (λ _, ok_page 1 [filing "정관변경"; untitled])).

(** Constituent services that fail, or answer with a null block. *)
Definition krx_down : world := world_of (λ _, inl (HTTPError 503)).

Definition krx_null_block_data : dict pyval :=
  [ (py "OutBlock_1", PNone); (py "CURRENT_DATETIME", PStr (py "2024.01.02")) ].

Definition krx_null_block : world := world_of (λ _, inr krx_null_block_data).

(** A registry document: two companies under the root, one of them
    without a ticker, and whitespace around the texts. *)
Definition text_child (tag text : string) : Dart.element :=
  Dart.Element (py tag) (Some (py text)) [].

Definition registry_tree : Dart.element :=
  Dart.Element (py "result") None
    [ Dart.Element (py "list") None
        [ text_child "corp_code" " 00126380 "; text_child "corp_name" "Sample Co";
          text_child "stock_code" "005930 "; text_child "modify_date" "20240101" ];
      Dart.Element (py "list") None
        [ text_child "corp_code" "00111111"; text_child "corp_name" "Unlisted";
          Dart.Element (py "stock_code") None [] ] ].

(** A checker configured with an empty keyword, and a company record
    without a registry code. *)
Definition lenient_checker : Checker.DividendPolicyChecker :=
  {| Checker.dart := client; Checker.start_date := py "20230101";
     Checker.end_date := py "20231231"; Checker.keywords := [py "배당"; []] |}.

Definition codeless_corp : dict pystr :=
  [ (py "stock_code", py "005930"); (py "name", py "Sample") ].

(** The result of evaluating [sample_corp] against [two_titles]. *)
Definition scenario_result : Checker.CompanyResult :=
  {| Checker.corp_code := py "00126380";
     Checker.corp_name := py "Sample Co";
     Checker.stock_code := py "005930";
     Checker.has_post_dividend_provision := true;
     Checker.matching_reports := [filing "정관변경에 관한 사항"] |}.

(** Two normalized constituent rows and an index that knows the first. *)
Definition normalized_rows : list (dict pystr) :=
  [ [ (py "stock_code", py "005930"); (py "name", py "Sample");
      (py "market", py "KOSPI") ];
    [ (py "stock_code", py "000660"); (py "name", py "Other");
      (py "market", py "KOSPI") ] ].

Definition small_index : gmap pystr (dict pystr) :=
  {[ py "005930" := [ (py "corp_code", py "00126380"); (py "corp_name", py "Sample Co");
                      (py "stock_code", py "005930"); (py "modify_date", py "20240101") ] ]}.

(** The record read from the first company of [registry_tree]. *)
Definition sample_record : dict pystr :=
  [ (py "corp_code", py "00126380"); (py "corp_name", py "Sample Co");
    (py "stock_code", py "005930"); (py "modify_date", py "20240101") ].

(** Raw constituent rows: one complete, one with a price where the ticker
    should be, one without a name. *)
Definition raw_rows : list (dict pystr) :=
  [ [ (py "ISU_SRT_CD", py "005930"); (py "ISU_ABBRV", py "Sample");
      (py "MKT_NM", py "KOSPI200") ];
    [ (py "TDD_CLSPRC", py "71,000"); (py "CMP_CD", py "000660");
      (py "CMP_KOR", py "Other") ];
    [ (py "ISU_SRT_CD", py "035420") ] ].

End Examples.

(* ===================================================================== *)
(** * Facts about text and dictionaries *)
(* ===================================================================== *)

Section TextFacts.

Lemma nonempty_true (s : pystr) : nonempty s = true ↔ s ≠ [].
Proof. destruct s; simpl; split; congruence. Qed.

Lemma nonempty_false (s : pystr) : nonempty s = false ↔ s = [].
Proof. destruct s; simpl; split; congruence. Qed.

Lemma lstrip_nil_inv (s : pystr) : s = [] → lstrip s = [].
Proof. by intros ->. Qed.

Lemma strip_nil : strip [] = [].
Proof. reflexivity. Qed.

(** Stripping never turns the empty string into a non-empty one. *)
Lemma strip_nonempty (s : pystr) : strip s ≠ [] → s ≠ [].
Proof. intros H ->. by apply H. Qed.

Lemma startswith_spec (needle hay : pystr) :
  startswith needle hay = true ↔ ∃ after, hay = needle ++ after.
Proof.
  revert hay. induction needle as [|a needle IH]; intros hay; simpl.
  - split; eauto.
  - destruct hay as [|b hay].
    + split; [discriminate | intros [after H]; discriminate].
    + rewrite andb_true_iff, N.eqb_eq, IH. split.
      * intros [-> [after ->]]. by exists after.
      * intros [after H]. injection H as -> ->. eauto.
Qed.

(** [contains] decides the substring relation. *)
Lemma contains_spec (needle hay : pystr) :
  contains needle hay = true ↔ substring needle hay.
Proof.
  unfold substring. induction hay as [|b hay IH].
  - simpl. rewrite orb_false_r, startswith_spec. split.
    + intros [after H]. by exists [], after.
    + intros [before [after H]]. destruct before; [by exists after|discriminate].
  - cbn [contains]. rewrite orb_true_iff, startswith_spec, IH. split.
    + intros [[after H] | [before [after H]]].
      * by exists [], after.
      * exists (b :: before), after. by rewrite H.
    + intros [[|c before] [after H]].
      * left. by exists after.
      * right. injection H as -> ->. by exists before, after.
Qed.

End TextFacts.

(* ===================================================================== *)
(** * The page loop of [search_filings] *)
(* ===================================================================== *)

Section SearchFacts.
Context (w : world) (self : Dart.DartClient).
Context (corp_code start_date end_date : pystr).
Context (detail_types : option pystr) (page_count : Z).

Local Abbreviation req := (Dart.page_request self corp_code start_date end_date detail_types page_count).
Local Abbreviation loop := (Dart.search_loop w self corp_code start_date end_date detail_types page_count).
Local Abbreviation ok := (Dart.page_ok w self corp_code start_date end_date detail_types page_count).
Local Abbreviation success := (Dart.page_success w self corp_code start_date end_date detail_types page_count).
Local Abbreviation params := (Dart.list_params corp_code start_date end_date detail_types page_count).

Lemma get_json_success page data log :
  success page data →
  Dart._get_json w self Dart.LIST_URL (params page) log
  = Some (inr data, log ++ [req page]).
Proof.
  intros [Hhttp Hstatus].
  unfold Dart._get_json, bind, fetch_json.
  unfold Dart.page_request in Hhttp. rewrite Hhttp, Hstatus. reflexivity.
Qed.

Lemma get_json_refused page data log :
  http_json w (req page) = inr data →
  Dart.bad_status (get data (py "status")) = true →
  Dart._get_json w self Dart.LIST_URL (params page) log
  = Some (inl (DartError (get data (py "status"))
                 (py_or (get data (py "message")) (PStr (py "Unexpected response")))),
          log ++ [req page]).
Proof.
  intros Hhttp Hstatus.
  unfold Dart._get_json, bind, fetch_json.
  unfold Dart.page_request in Hhttp. rewrite Hhttp, Hstatus. reflexivity.
Qed.

(** One iteration that goes on to the next page. *)
Lemma loop_next fuel page filings log items total :
  ok page items total → page < total →
  loop (S fuel) page filings log
  = loop fuel (page + 1) (filings ++ items) (log ++ [req page]).
Proof.
  intros (data & Hsucc & Hitems & Htotal) Hlt.
  cbn [Dart.search_loop]. unfold bind at 1.
  rewrite (get_json_success _ _ _ Hsucc).
  unfold Dart.page_list in Hitems. unfold Dart.declared_total in Htotal.
  unfold bind. rewrite Hitems. cbn [lift ret]. rewrite Htotal. cbn [lift ret].
  destruct (Z.geb_spec page total); [lia | reflexivity].
Qed.

(** The iteration that leaves the loop. *)
Lemma loop_last fuel page filings log items total :
  ok page items total → total ≤ page →
  loop (S fuel) page filings log
  = Some (inr (filings ++ items), log ++ [req page]).
Proof.
  intros (data & Hsucc & Hitems & Htotal) Hge.
  cbn [Dart.search_loop]. unfold bind at 1.
  rewrite (get_json_success _ _ _ Hsucc).
  unfold Dart.page_list in Hitems. unfold Dart.declared_total in Htotal.
  unfold bind. rewrite Hitems. cbn [lift ret]. rewrite Htotal. cbn [lift ret].
  destruct (Z.geb_spec page total); [reflexivity | lia].
Qed.

(** The iteration whose response is refused. *)
Lemma loop_refused fuel page filings log data :
  http_json w (req page) = inr data →
  Dart.bad_status (get data (py "status")) = true →
  loop (S fuel) page filings log
  = Some (inl (DartError (get data (py "status"))
                 (py_or (get data (py "message")) (PStr (py "Unexpected response")))),
          log ++ [req page]).
Proof.
  intros Hhttp Hstatus.
  cbn [Dart.search_loop]. unfold bind at 1.
  by rewrite (get_json_refused _ _ _ Hhttp Hstatus).
Qed.

(** A run of [n] iterations that all go on: the loop has requested the
    pages [page .. page + n - 1] in order and gathered their items. *)
Lemma loop_run (items_of : Z → list pyval) (total_of : Z → Z) n :
  ∀ fuel page filings log,
    (∀ j, page ≤ j < page + Z.of_nat n →
          ok j (items_of j) (total_of j) ∧ j < total_of j) →
    loop (n + fuel) page filings log
    = loop fuel (page + Z.of_nat n)
        (filings ++ concat (map items_of (seqZ page (Z.of_nat n))))
        (log ++ map req (seqZ page (Z.of_nat n))).
Proof.
  induction n as [|n IH]; intros fuel page filings log Hpages.
  - cbn [Nat.add Z.of_nat]. rewrite Z.add_0_r.
    change (seqZ page 0) with (@nil Z). cbn [map concat]. by rewrite !app_nil_r.
  - destruct (Hpages page) as [Hok Hlt]; [lia|].
    cbn [Nat.add]. rewrite (loop_next _ _ _ _ _ _ Hok Hlt).
    rewrite IH by (intros j Hj; apply Hpages; lia).
    rewrite Nat2Z.inj_succ, (seqZ_cons page) by lia.
    rewrite Z.pred_succ. cbn [map concat].
    rewrite <- !app_assoc. cbn [app].
    replace (Z.succ page) with (page + 1) by lia.
    replace (page + Z.succ (Z.of_nat n)) with (page + 1 + Z.of_nat n) by lia.
    reflexivity.
Qed.

End SearchFacts.

Section SearchContracts.
Context (w : world) (self : Dart.DartClient).
Context (corp_code start_date end_date : pystr).
Context (detail_types : option pystr) (page_count : Z).

Local Abbreviation req := (Dart.page_request self corp_code start_date end_date detail_types page_count).
Local Abbreviation loop := (Dart.search_loop w self corp_code start_date end_date detail_types page_count).
Local Abbreviation search := (Dart.search_filings w self corp_code start_date end_date detail_types page_count).
Local Abbreviation ok := (Dart.page_ok w self corp_code start_date end_date detail_types page_count).
Local Abbreviation success := (Dart.page_success w self corp_code start_date end_date detail_types page_count).

Lemma bad_status_spec (status : pyval) :
  Dart.bad_status status = true ↔ status ≠ PStr (py "000") ∧ status ≠ PNone.
Proof.
  unfold Dart.bad_status, eq_str.
  destruct status as [| | | |s| |]; try (cbn; split; [split; congruence | reflexivity]).
  - cbn. split; [discriminate | intros [_ H]; congruence].
  - rewrite orb_false_r, negb_true_iff, bool_decide_eq_false.
    split; [intros H; split; congruence | intros [H _] ->; congruence].
Qed.

Lemma search_enters_loop fuel log :
  corp_code ≠ [] → search fuel log = loop fuel 1 [] log.
Proof.
  intros H. unfold Dart.search_filings.
  apply nonempty_true in H. by rewrite H.
Qed.

(** When the pages 1..n all go through and all declare [n], the search
    drains them: shared by the contracts below. *)
Lemma search_drains (items_of : Z → list pyval) (n fuel : nat) log :
  corp_code ≠ [] → (1 ≤ n ≤ fuel)%nat →
  (∀ j, 1 ≤ j ≤ Z.of_nat n → ok j (items_of j) (Z.of_nat n)) →
  search fuel log
  = Some (inr (concat (map items_of (seqZ 1 (Z.of_nat n)))),
          log ++ map req (seqZ 1 (Z.of_nat n))).
Proof.
  intros Hcode [Hn Hfuel] Hpages. rewrite search_enters_loop by done.
  destruct n as [|m]; [lia|].
  replace fuel with (m + S (fuel - S m))%nat by lia.
  rewrite (loop_run _ _ _ _ _ _ _ items_of (λ _, Z.of_nat (S m))).
  2:{ intros j Hj. split; [apply Hpages|]; lia. }
  rewrite (loop_last _ _ _ _ _ _ _ _ _ _ _ (items_of (1 + Z.of_nat m)) (Z.of_nat (S m))).
  2:{ apply Hpages. lia. }
  2:{ lia. }
  rewrite seqZ_S.
  rewrite !map_app, concat_app. cbn [map concat].
  by rewrite !app_nil_r, <- !app_assoc.
Qed.

(** C1, as amended: when each of the pages 1..n answers with a success
    status and declares the total-page count n (n >= 1), the search issues
    exactly the n requests for the pages 1, 2, ..., n in this order and
    returns the pages' item lists concatenated in page order, whatever the
    page size. *)
Theorem search_filings_all_pages (items_of : Z → list pyval) (n fuel : nat) log :
  corp_code ≠ [] → (1 ≤ n ≤ fuel)%nat →
  (∀ j, 1 ≤ j ≤ Z.of_nat n → ok j (items_of j) (Z.of_nat n)) →
  search fuel log
  = Some (inr (concat (map items_of (seqZ 1 (Z.of_nat n)))),
          log ++ map req (seqZ 1 (Z.of_nat n))).
Proof. apply search_drains. Qed.

(** C2: when the pages before page k go through and lead on, and the
    response for page k carries a status that is neither "000" nor absent,
    the search ends with the error that carries this status and the
    upstream message; it returns no items, not even those of the earlier
    pages, and the requests issued are exactly those for the pages 1..k. *)
Theorem search_filings_aborts_on_status
    (items_of : Z → list pyval) (total_of : Z → Z) (k fuel : nat) data log :
  corp_code ≠ [] → (1 ≤ k ≤ fuel)%nat →
  (∀ j, 1 ≤ j < Z.of_nat k → ok j (items_of j) (total_of j) ∧ j < total_of j) →
  http_json w (req (Z.of_nat k)) = inr data →
  get data (py "status") ≠ PStr (py "000") →
  get data (py "status") ≠ PNone →
  search fuel log
  = Some (inl (DartError (get data (py "status"))
                 (py_or (get data (py "message")) (PStr (py "Unexpected response")))),
          log ++ map req (seqZ 1 (Z.of_nat k))).
Proof.
  intros Hcode [Hk Hfuel] Hpages Hhttp Hne1 Hne2.
  rewrite search_enters_loop by done.
  destruct k as [|m]; [lia|].
  replace fuel with (m + S (fuel - S m))%nat by lia.
  rewrite (loop_run _ _ _ _ _ _ _ items_of total_of).
  2:{ intros j Hj. apply Hpages. lia. }
  replace (1 + Z.of_nat m) with (Z.of_nat (S m)) by lia.
  rewrite (loop_refused _ _ _ _ _ _ _ _ _ _ _ data Hhttp).
  2:{ by apply bad_status_spec. }
  rewrite seqZ_S, map_app. cbn [map].
  replace (1 + Z.of_nat m) with (Z.of_nat (S m)) by lia.
  by rewrite <- app_assoc.
Qed.

(** C9: when the first response has a success status and its total_page
    is absent, null, zero or any other falsy value, the total counts as 1:
    the search issues the request for page 1 only and returns exactly the
    items of that page. *)
Theorem search_filings_falsy_total data items (fuel : nat) log :
  corp_code ≠ [] → (1 ≤ fuel)%nat →
  success 1 data →
  truthy (get data (py "total_page")) = false →
  Dart.page_list data = inr items →
  search fuel log = Some (inr items, log ++ [req 1]).
Proof.
  intros Hcode Hfuel Hsucc Hfalsy Hitems.
  rewrite search_enters_loop by done.
  destruct fuel as [|fuel]; [lia|].
  rewrite (loop_last _ _ _ _ _ _ _ _ _ _ _ items 1); [done| |lia].
  exists data. split_and!; [done..|].
  unfold Dart.declared_total, py_or. by rewrite Hfalsy.
Qed.

(** C10: a success response whose list field is absent or null contributes
    no items and raises nothing: when the pages 1..n go through and declare
    n, and [listless] marks the pages whose list is absent or null, the
    result is the concatenation, in page order, of the items of the other
    pages, and all n pages are requested. *)
Theorem search_filings_skips_listless
    (listless : Z → bool) (items_of : Z → list pyval) (n fuel : nat) log :
  corp_code ≠ [] → (1 ≤ n ≤ fuel)%nat →
  (∀ j, 1 ≤ j ≤ Z.of_nat n →
     ∃ data, success j data
       ∧ Dart.declared_total w data = inr (Z.of_nat n)
       ∧ if listless j
         then dict_get (py "list") data = None
              ∨ dict_get (py "list") data = Some PNone
         else Dart.page_list data = inr (items_of j)) →
  search fuel log
  = Some (inr (concat (map items_of
                         (filter (λ j, listless j = false) (seqZ 1 (Z.of_nat n))))),
          log ++ map req (seqZ 1 (Z.of_nat n))).
Proof.
  intros Hcode Hn Hpages.
  assert (∀ j, 1 ≤ j ≤ Z.of_nat n →
            ok j (if listless j then [] else items_of j) (Z.of_nat n)) as Hok.
  { intros j Hj. destruct (Hpages j Hj) as (data & Hs & Ht & Hl).
    exists data. split_and!; [done| |done].
    destruct (listless j); [|done].
    unfold Dart.page_list, get. by destruct Hl as [-> | ->]. }
  rewrite (search_drains _ n fuel log Hcode Hn Hok).
  do 3 f_equal.
  induction (seqZ 1 (Z.of_nat n)) as [|j l IH]; [done|].
  rewrite filter_cons. cbn [map concat]. rewrite IH.
  destruct (decide (listless j = false)) as [E|E].
  - by rewrite E.
  - apply not_false_is_true in E. by rewrite E.
Qed.

End SearchContracts.

(** C8: a search with an empty company code fails at once with the
    validation error; the request log is unchanged (no page request is
    issued) and no items are returned. *)
Theorem search_filings_requires_corp_code
    w self start_date end_date detail_types page_count (fuel : nat) log :
  Dart.search_filings w self [] start_date end_date detail_types page_count fuel log
  = Some (inl (ValueError (py "corp_code is required")), log).
Proof. reflexivity. Qed.

(* ===================================================================== *)
(** * The search contracts on the fake services *)
(* ===================================================================== *)

Section SearchExamples.
Import Examples.

Lemma paged_request pages self corp_code start_date end_date detail_types page_count page :
  paged pages
    (Dart.page_request self corp_code start_date end_date detail_types page_count page)
  = pages page.
Proof. by destruct detail_types as [[|c t]|]. Qed.

Lemma search_filings_all_pages_witness :
  search three_pages 3 []
  = Some (inr [filing "A1"; filing "A2"; filing "B1"; filing "C1"],
          [request_for 1; request_for 2; request_for 3]).
Proof.
  apply (search_filings_all_pages three_pages client (py "00126380") (py "20230101")
           (py "20231231") (Some (py "B001,I001")) 100
           (λ j, if j =? 1 then [filing "A1"; filing "A2"]
                 else if j =? 2 then [filing "B1"] else [filing "C1"])
           3 3 []).
  - discriminate.
  - lia.
  - intros j Hj.
    assert (j = 1 ∨ j = 2 ∨ j = 3) as [-> | [-> | ->]] by lia;
      (eexists; split_and!; [split|..]; reflexivity).
Defined.

Lemma total_dropped_run (fuel : nat) :
  (2 ≤ fuel)%nat →
  search total_dropped fuel []
  = Some (inr [filing "A1"; filing "B1"], [request_for 1; request_for 2]).
Proof.
  intros Hfuel. destruct fuel as [|[|fuel]]; [lia..|].
  unfold search. rewrite search_enters_loop by discriminate.
  rewrite (loop_next _ _ _ _ _ _ _ _ _ _ _ [filing "A1"] 3);
    [|eexists; split_and!; [split|..]; reflexivity|lia].
  rewrite (loop_last _ _ _ _ _ _ _ _ _ _ _ [filing "B1"] 1);
    [|eexists; split_and!; [split|..]; reflexivity|lia].
  reflexivity.
Qed.

(** C1, as stated, fails: page 1 declares three pages and every page
    answers with a success status, but page 2 carries no total_page, so the
    loop stops there: two requests, and the items of page 3 are missing. *)
Lemma search_filings_total_dropped :
  Dart.page_ok total_dropped client (py "00126380") (py "20230101") (py "20231231")
    (Some (py "B001,I001")) 100 1 [filing "A1"] 3
  ∧ (∀ page, ∃ data,
       Dart.page_success total_dropped client (py "00126380") (py "20230101")
         (py "20231231") (Some (py "B001,I001")) 100 page data)
  ∧ search total_dropped 3 []
    = Some (inr [filing "A1"; filing "B1"], [request_for 1; request_for 2])
  ∧ ∀ fuel, search total_dropped fuel []
            ≠ Some (inr [filing "A1"; filing "B1"; filing "C1"],
                    [request_for 1; request_for 2; request_for 3]).
Proof.
  split_and!.
  - eexists. split_and!; [split|..]; reflexivity.
  - intros page. unfold Dart.page_success, total_dropped, world_of, http_json.
    rewrite paged_request. cbv beta.
    destruct (page =? 1); [|destruct (page =? 2)]; eexists; split; reflexivity.
  - apply total_dropped_run. lia.
  - intros fuel.
    destruct (le_lt_dec 2 fuel) as [Hfuel|Hfuel].
    + rewrite (total_dropped_run fuel Hfuel). intros H. injection H as H _. discriminate H.
    + destruct fuel as [|[|fuel]]; [discriminate..|lia].
Qed.

Lemma search_filings_aborts_on_status_witness :
  search page2_refused 5 []
  = Some (inl (DartError (PStr (py "013")) (PStr (py "no data"))),
          [request_for 1; request_for 2]).
Proof.
  apply (search_filings_aborts_on_status page2_refused client (py "00126380")
           (py "20230101") (py "20231231") (Some (py "B001,I001")) 100
           (λ _, [filing "A1"]) (λ _, 3) 2 5
           [ (py "status", PStr (py "013")); (py "message", PStr (py "no data")) ] []).
  - discriminate.
  - lia.
  - intros j Hj. assert (j = 1) as -> by lia.
    split; [|lia]. eexists; split_and!; [split|..]; reflexivity.
  - reflexivity.
  - discriminate.
  - discriminate.
Defined.

Lemma search_filings_falsy_total_witness :
  search zero_total 1 [] = Some (inr [filing "A1"], [request_for 1]).
Proof.
  apply (search_filings_falsy_total zero_total client (py "00126380")
           (py "20230101") (py "20231231") (Some (py "B001,I001")) 100
           [ (py "status", PStr (py "000")); (py "message", PStr (py "정상"));
             (py "total_page", PInt 0); (py "list", PList [filing "A1"]) ]
           [filing "A1"] 1 []).
  - discriminate.
  - lia.
  - split; reflexivity.
  - reflexivity.
  - reflexivity.
Defined.

Lemma search_filings_skips_listless_witness :
  search null_list_page2 3 []
  = Some (inr [filing "A1"; filing "C1"],
          [request_for 1; request_for 2; request_for 3]).
Proof.
  apply (search_filings_skips_listless null_list_page2 client (py "00126380")
           (py "20230101") (py "20231231") (Some (py "B001,I001")) 100
           (λ j, j =? 2)
           (λ j, if j =? 1 then [filing "A1"] else [filing "C1"])
           3 3 []).
  - discriminate.
  - lia.
  - intros j Hj.
    assert (j = 1 ∨ j = 2 ∨ j = 3) as [-> | [-> | ->]] by lia;
      (eexists; split_and!; [split|..]; try reflexivity).
    right. reflexivity.
Defined.

End SearchExamples.

(* ===================================================================== *)
(** * The registry index *)
(* ===================================================================== *)

Section IndexFacts.

Lemma index_entry_lookup index (entry : dict pystr) (t : pystr) :
  Dart.index_entry index entry !! t
  = if decide (Dart.indexed entry = true ∧ Dart.entry_ticker entry = t)
    then Some entry else index !! t.
Proof.
  unfold Dart.index_entry, Dart.indexed.
  fold (Dart.entry_ticker entry). fold (Dart.entry_code entry).
  destruct (nonempty (Dart.entry_ticker entry)), (nonempty (Dart.entry_code entry));
    cbn [negb orb andb].
  - destruct (decide (Dart.entry_ticker entry = t)) as [<-|Hne].
    + rewrite lookup_insert_eq. by rewrite decide_True.
    + rewrite lookup_insert_ne by done. rewrite decide_False; [done|]. by intros [_ ?].
  - rewrite decide_False; [done|]. by intros [? _].
  - rewrite decide_False; [done|]. by intros [? _].
  - rewrite decide_False; [done|]. by intros [? _].
Qed.

Lemma build_corp_index_snoc codes (entry : dict pystr) :
  Dart.build_corp_index (codes ++ [entry])
  = Dart.index_entry (Dart.build_corp_index codes) entry.
Proof. unfold Dart.build_corp_index. by rewrite foldl_app. Qed.

(** The index maps a key to the last indexed entry carrying it. *)
Lemma build_corp_index_lookup (codes : list (dict pystr)) (t : pystr) :
  Dart.build_corp_index codes !! t
  = last (filter (λ e, Dart.indexed e = true ∧ Dart.entry_ticker e = t) codes).
Proof.
  induction codes as [|entry codes IH] using rev_ind.
  - done.
  - rewrite build_corp_index_snoc, index_entry_lookup, filter_app, IH.
    rewrite filter_cons, filter_nil.
    destruct (decide _); [by rewrite last_snoc | by rewrite app_nil_r].
Qed.

Lemma entry_field_nonempty (entry : dict pystr) (k : pystr) :
  nonempty (strip (or_str (dict_get k entry) [])) = true →
  ∃ s, dict_get k entry = Some s ∧ s ≠ [] ∧ strip s = strip (or_str (dict_get k entry) []).
Proof.
  destruct (dict_get k entry) as [[|c s]|]; cbn [or_str]; try discriminate.
  intros _. by exists (c :: s).
Qed.

(** C4: the index built from any sequence of registry entries holds no
    entry whose ticker or code is empty (or missing), and it maps a ticker
    to the last entry, in iteration order, among the indexed entries that
    carry this ticker: the last write wins. *)
Theorem build_corp_index_last_wins (codes : list (dict pystr)) (t : pystr) :
  Dart.build_corp_index codes !! t
  = last (filter (λ e, Dart.indexed e = true ∧ Dart.entry_ticker e = t) codes)
  ∧ ∀ entry, Dart.build_corp_index codes !! t = Some entry →
      entry ∈ codes
      ∧ (∃ ticker, dict_get (py "stock_code") entry = Some ticker
                   ∧ ticker ≠ [] ∧ strip ticker = t)
      ∧ (∃ code, dict_get (py "corp_code") entry = Some code ∧ code ≠ []).
Proof.
  split; [apply build_corp_index_lookup|].
  intros entry. rewrite build_corp_index_lookup. intros Hlast.
  apply last_Some_elem_of, list_elem_of_filter in Hlast as [[Hidx Ht] Hin].
  apply andb_true_iff in Hidx as [Hticker Hcode].
  split_and!; [done| |].
  - destruct (entry_field_nonempty _ _ Hticker) as (s & Hs & Hne & Hstrip).
    exists s. split_and!; [done..|]. by rewrite Hstrip.
  - destruct (entry_field_nonempty _ _ Hcode) as (s & Hs & Hne & _). by exists s.
Qed.

Lemma build_corp_index_last_wins_witness :
  Dart.build_corp_index Examples.registry !! py "005930"
  = Some [ (py "corp_code", py "00999999"); (py "corp_name", py "New Co");
           (py "stock_code", py "005930") ]
  ∧ Dart.build_corp_index Examples.registry !! py "000660" = None.
Proof.
  split.
  - rewrite (proj1 (build_corp_index_last_wins Examples.registry (py "005930"))).
    vm_compute. reflexivity.
  - rewrite (proj1 (build_corp_index_last_wins Examples.registry (py "000660"))).
    vm_compute. reflexivity.
Defined.

End IndexFacts.

(* ===================================================================== *)
(** * Constituents: fetch and normalization *)
(* ===================================================================== *)

Section KrxFacts.

Lemma normalize_row_length normalized (entry : dict pystr) :
  (length (Krx.normalize_row normalized entry) ≤ S (length normalized))%nat.
Proof.
  unfold Krx.normalize_row.
  destruct (negb _ || negb _); [lia|]. rewrite length_app. cbn. lia.
Qed.

(** X26: the part of the normalization contract that holds for every
    input: no row is invented, the output is never longer than the
    input. *)
Lemma normalize_constituents_length (entries : list (dict pystr)) :
  (length (Krx.normalize_constituents entries) ≤ length entries)%nat.
Proof.
  unfold Krx.normalize_constituents.
  induction entries as [|entry entries IH] using rev_ind; [done|].
  rewrite foldl_app, length_app. cbn [foldl length].
  pose proof (normalize_row_length (foldl Krx.normalize_row [] entries) entry). lia.
Qed.

(** C3, at the failing input: a raw row whose ticker field is a single
    space passes the emptiness test, which runs before the whitespace is
    stripped, and comes out as a row whose ticker is the empty string. *)
Theorem normalize_constituents_blank_ticker :
  Krx.normalize_constituents [Examples.blank_ticker_row]
  = [ [ (py "stock_code", []); (py "name", py "Sample"); (py "market", py "KOSPI") ] ].
Proof. vm_compute. reflexivity. Qed.

(** C7: when the parsed response lacks the "OutBlock_1" key the fetch fails
    with [KrxError], the upstream protocol error, which is not a transport
    error; when the key holds a sequence of rows, the fetch returns these
    rows.  Either way exactly one request has been issued. *)
Theorem fetch_kospi200_result_block (w : world) (trade_date : option pystr) data log :
  http_json w (Krx.constituents_request w trade_date) = inr data →
  (dict_get (py "OutBlock_1") data = None →
     Krx.fetch_kospi200 w trade_date log
     = Some (inl (KrxError (sorted (dict_keys data))),
             log ++ [Krx.constituents_request w trade_date])
     ∧ ∀ e, KrxError (sorted (dict_keys data)) ≠ Transport e)
  ∧ (∀ rows, dict_get (py "OutBlock_1") data = Some (PList rows) →
       Krx.fetch_kospi200 w trade_date log
       = Some (inr rows, log ++ [Krx.constituents_request w trade_date])).
Proof.
  intros Hhttp.
  unfold Krx.fetch_kospi200, Krx._post_json, bind, fetch_json.
  unfold Krx.constituents_request in Hhttp. rewrite Hhttp.
  unfold dict_mem, get. split.
  - intros ->. split; [reflexivity | discriminate].
  - intros rows Hr. rewrite Hr. destruct rows; reflexivity.
Qed.

Lemma fetch_kospi200_result_block_witness :
  Krx.fetch_kospi200 Examples.krx_changed None []
  = Some (inl (KrxError [py "CURRENT_DATETIME"; py "output"]),
          [Krx.constituents_request Examples.krx_changed None])
  ∧ Krx.fetch_kospi200 Examples.krx_rows (Some (py "20240102")) []
    = Some (inr [Examples.krx_row],
            [Krx.constituents_request Examples.krx_rows (Some (py "20240102"))]).
Proof.
  split.
  - assert (sorted (dict_keys Examples.krx_changed_data)
            = [py "CURRENT_DATETIME"; py "output"]) as <-
      by (vm_compute; reflexivity).
    exact (proj1 (proj1 (fetch_kospi200_result_block Examples.krx_changed None
                           Examples.krx_changed_data [] eq_refl) eq_refl)).
  - exact (proj2 (fetch_kospi200_result_block Examples.krx_rows (Some (py "20240102"))
                    Examples.krx_rows_data [] eq_refl) [Examples.krx_row] eq_refl).
Defined.

End KrxFacts.

(* ===================================================================== *)
(** * Keyword matching and the evaluation of a company *)
(* ===================================================================== *)

Section CheckerFacts.

Lemma any_keyword_in_str (keywords : list pystr) (title : pystr) :
  Checker.any_keyword_in keywords (PStr title)
  = inr (existsb (λ keyword, contains keyword title) keywords).
Proof.
  induction keywords as [|keyword rest IH]; [done|].
  cbn [Checker.any_keyword_in str_in existsb].
  destruct (contains keyword title); [done|]. by rewrite IH.
Qed.

Lemma existsb_contains (keywords : list pystr) (title : pystr) :
  existsb (λ keyword, contains keyword title) keywords = true
  ↔ ∃ keyword, keyword ∈ keywords ∧ substring keyword title.
Proof.
  rewrite existsb_exists. split.
  - intros (k & Hin & Hk). exists k. split; [by apply list_elem_of_In|by apply contains_spec].
  - intros (k & Hin & Hk). exists k. split; [by apply list_elem_of_In|by apply contains_spec].
Qed.

(** C6: on a title string, [_matches_policy] answers true exactly when
    the title holds one of the configured keywords as a literal run of code
    points (nothing is folded or normalized); with the default keywords,
    "2024년 배당기준일 변경 공시" matches and "영업실적 발표" does not. *)
Theorem matches_policy_substring :
  (∀ (self : Checker.DividendPolicyChecker) (title : pystr),
     ∃ b, Checker._matches_policy self (PStr title) = inr b
          ∧ (b = true ↔ ∃ keyword, keyword ∈ Checker.keywords self
                                    ∧ substring keyword title))
  ∧ (∀ client start_date end_date,
       Checker._matches_policy (Checker.new_checker client start_date end_date)
         (PStr (py "2024년 배당기준일 변경 공시")) = inr true
       ∧ Checker._matches_policy (Checker.new_checker client start_date end_date)
           (PStr (py "영업실적 발표")) = inr false).
Proof.
  split.
  - intros self title. eexists. split.
    + apply any_keyword_in_str.
    + apply existsb_contains.
  - intros client start_date end_date.
    unfold Checker._matches_policy, Checker.new_checker, Checker.keywords.
    rewrite !any_keyword_in_str. split; vm_compute; reflexivity.
Qed.

Lemma select_matches_filter (self : Checker.DividendPolicyChecker) (filings : list pyval) :
  (∀ item, item ∈ filings → is_Some (Checker.title_of item)) →
  Checker.select_matches self filings
  = inr (filter (λ item, Checker.title_matches self item = true) filings).
Proof.
  induction filings as [|item rest IH]; intros Htitles; [done|].
  cbn [Checker.select_matches].
  destruct (Htitles item) as [title Htitle]; [left|].
  assert (method_get item (py "report_nm") (PStr []) = inr (PStr title)) as ->.
  { unfold Checker.title_of in Htitle. destruct item; try discriminate.
    cbn [method_get]. destruct (get_default _ _ _); try discriminate. congruence. }
  unfold Checker._matches_policy. rewrite any_keyword_in_str.
  rewrite IH by (intros ? ?; apply Htitles; by right).
  assert (Checker.title_matches self item
          = existsb (λ keyword, contains keyword title) (Checker.keywords self)) as E
    by (unfold Checker.title_matches; by rewrite Htitle).
  rewrite filter_cons, E.
  destruct (existsb _ _); [by rewrite decide_True | by rewrite decide_False].
Qed.

Lemma list_truthy_filter (self : Checker.DividendPolicyChecker) (filings : list pyval) :
  Checker.list_truthy (filter (λ item, Checker.title_matches self item = true) filings)
  = existsb (Checker.title_matches self) filings.
Proof.
  induction filings as [|item rest IH]; [done|].
  rewrite filter_cons. cbn [existsb].
  destruct (Checker.title_matches self item) eqn:E.
  - by rewrite decide_True.
  - by rewrite decide_False.
Qed.

(** C5: when the search for the company returns disclosures, each with a
    title string, [evaluate_company] returns a result whose matching
    reports are exactly the fetched disclosures whose title holds a
    configured keyword, in fetch order, and whose provision flag is true
    exactly when some fetched disclosure matches; the identifying fields
    come from the company record.  With the two disclosures titled
    "정관변경에 관한 사항" and "실적발표" the flag is true and the matching
    reports are the first disclosure alone. *)
Theorem evaluate_company_matches :
  (∀ w self (corp : dict pystr) fuel log filings log',
     Dart.search_filings w (Checker.dart self)
       (or_str (dict_get (py "corp_code") corp) [])
       (Checker.start_date self) (Checker.end_date self)
       (Some (py "B001,I001")) 100 fuel log
     = Some (inr filings, log') →
     (∀ item, item ∈ filings → is_Some (Checker.title_of item)) →
     ∃ result,
       Checker.evaluate_company w self corp fuel log = Some (inr result, log')
       ∧ Checker.matching_reports result
         = filter (λ item, Checker.title_matches self item = true) filings
       ∧ (Checker.has_post_dividend_provision result = true
          ↔ ∃ item, item ∈ filings ∧ Checker.title_matches self item = true)
       ∧ Checker.corp_code result = or_str (dict_get (py "corp_code") corp) []
       ∧ Checker.corp_name result
         = or_str (opt_or (dict_get (py "corp_name") corp)
                          (dict_get (py "name") corp)) []
       ∧ Checker.stock_code result = or_str (dict_get (py "stock_code") corp) [])
  ∧ Checker.evaluate_company Examples.two_titles Examples.checker
      Examples.sample_corp 1 []
    = Some (inr {| Checker.corp_code := py "00126380";
                   Checker.corp_name := py "Sample Co";
                   Checker.stock_code := py "005930";
                   Checker.has_post_dividend_provision := true;
                   Checker.matching_reports :=
                     [Examples.filing "정관변경에 관한 사항"] |},
            [Examples.request_for 1]).
Proof.
  split; [|vm_compute; reflexivity].
  intros w self corp fuel log filings log' Hsearch Htitles.
  eexists. split.
  { unfold Checker.evaluate_company, bind. rewrite Hsearch.
    rewrite (select_matches_filter self filings Htitles). reflexivity. }
  cbn [Checker.matching_reports Checker.has_post_dividend_provision
       Checker.corp_code Checker.corp_name Checker.stock_code].
  split_and!; try reflexivity.
  rewrite list_truthy_filter, existsb_exists.
  split; intros (item & Hin & Hm); exists item; (split; [by apply list_elem_of_In|done]).
Qed.

Lemma evaluate_company_matches_witness :
  ∃ result,
    Checker.evaluate_company Examples.three_pages Examples.checker
      Examples.sample_corp 3 []
    = Some (inr result,
            [Examples.request_for 1; Examples.request_for 2; Examples.request_for 3])
    ∧ Checker.matching_reports result = []
    ∧ Checker.corp_name result = py "Sample Co".
Proof.
  assert (Dart.search_filings Examples.three_pages
            (Checker.dart Examples.checker)
            (or_str (dict_get (py "corp_code") Examples.sample_corp) [])
            (Checker.start_date Examples.checker) (Checker.end_date Examples.checker)
            (Some (py "B001,I001")) 100 3 []
          = Some (inr [Examples.filing "A1"; Examples.filing "A2";
                       Examples.filing "B1"; Examples.filing "C1"],
                  [Examples.request_for 1; Examples.request_for 2;
                   Examples.request_for 3])) as Hsearch
    by (vm_compute; reflexivity).
  destruct (proj1 evaluate_company_matches _ _ _ _ _ _ _ Hsearch)
    as (result & Heval & Hmatches & _ & _ & Hname & _).
  { intros item Hin.
    repeat (apply elem_of_cons in Hin as [-> | Hin]; [by eexists|]).
    by apply elem_of_nil in Hin. }
  exists result. split_and!; [exact Heval| |].
  - rewrite Hmatches. vm_compute. reflexivity.
  - rewrite Hname. vm_compute. reflexivity.
Defined.

End CheckerFacts.

(* ===================================================================== *)
(** * More on whitespace stripping *)
(* ===================================================================== *)

Section StripFacts.

Lemma lstrip_idemp (s : pystr) : lstrip (lstrip s) = lstrip s.
Proof.
  induction s as [|c s IH]; [done|].
  cbn [lstrip]. destruct (isspace c) eqn:E; [done|].
  cbn [lstrip]. by rewrite E.
Qed.

Lemma lstrip_snoc (l : pystr) (c : N) :
  isspace c = false → lstrip (l ++ [c]) = lstrip l ++ [c].
Proof.
  intros Hc. induction l as [|a l IH]; cbn [app lstrip].
  - by rewrite Hc.
  - by destruct (isspace a).
Qed.

Lemma rstrip_cons (c : N) (s : pystr) :
  isspace c = false → rstrip (c :: s) = c :: rstrip s.
Proof.
  intros Hc. unfold rstrip.
  by rewrite reverse_cons, lstrip_snoc, reverse_app, reverse_singleton.
Qed.

Lemma rstrip_idemp (s : pystr) : rstrip (rstrip s) = rstrip s.
Proof. unfold rstrip. by rewrite reverse_involutive, lstrip_idemp. Qed.

(** [strip] is idempotent: a stripped string is left as it is. *)
Lemma strip_idemp (s : pystr) : strip (strip s) = strip s.
Proof.
  unfold strip. destruct (lstrip s) as [|c t] eqn:E; [done|].
  assert (isspace c = false) as Hc.
  { clear -E. induction s as [|a s IH]; [done|].
    cbn [lstrip] in E. destruct (isspace a) eqn:Ha; [by apply IH|congruence]. }
  rewrite (rstrip_cons c t Hc). cbn [lstrip]. rewrite Hc.
  rewrite <- (rstrip_cons c t Hc). apply rstrip_idemp.
Qed.

End StripFacts.

(* ===================================================================== *)
(** * More on the page loop *)
(* ===================================================================== *)

Section LoopFacts.
Context (w : world) (self : Dart.DartClient).
Context (corp_code start_date end_date : pystr).
Context (detail_types : option pystr) (page_count : Z).

Local Abbreviation req := (Dart.page_request self corp_code start_date end_date detail_types page_count).
Local Abbreviation loop := (Dart.search_loop w self corp_code start_date end_date detail_types page_count).
Local Abbreviation search := (Dart.search_filings w self corp_code start_date end_date detail_types page_count).
Local Abbreviation ok := (Dart.page_ok w self corp_code start_date end_date detail_types page_count).
Local Abbreviation success := (Dart.page_success w self corp_code start_date end_date detail_types page_count).
Local Abbreviation params := (Dart.list_params corp_code start_date end_date detail_types page_count).

Lemma loop_transport fuel page filings log e :
  http_json w (req page) = inl e →
  loop (S fuel) page filings log = Some (inl (Transport e), log ++ [req page]).
Proof.
  intros Hhttp. cbn [Dart.search_loop]. unfold bind at 1.
  unfold Dart._get_json, bind at 1, fetch_json.
  fold (req page). by rewrite Hhttp.
Qed.

Lemma loop_bad_list fuel page filings log data e :
  success page data → Dart.page_list data = inl e →
  loop (S fuel) page filings log = Some (inl e, log ++ [req page]).
Proof.
  intros Hsucc Hlist. cbn [Dart.search_loop]. unfold bind at 1.
  rewrite (get_json_success _ _ _ _ _ _ _ _ _ _ Hsucc).
  unfold Dart.page_list in Hlist. unfold bind. by rewrite Hlist.
Qed.

Lemma loop_bad_total fuel page filings log data items e :
  success page data → Dart.page_list data = inr items →
  Dart.declared_total w data = inl e →
  loop (S fuel) page filings log = Some (inl e, log ++ [req page]).
Proof.
  intros Hsucc Hlist Htotal. cbn [Dart.search_loop]. unfold bind at 1.
  rewrite (get_json_success _ _ _ _ _ _ _ _ _ _ Hsucc).
  unfold Dart.page_list in Hlist. unfold Dart.declared_total in Htotal.
  unfold bind. rewrite Hlist. cbn [lift ret]. by rewrite Htotal.
Qed.

(** One iteration either ends the loop, having sent the request for the
    page, or goes on to the next page with that request sent. *)
Lemma loop_step fuel page filings log :
  (∃ out, loop (S fuel) page filings log = Some (out, log ++ [req page]))
  ∨ (∃ filings',
       loop (S fuel) page filings log
       = loop fuel (page + 1) filings' (log ++ [req page])).
Proof.
  destruct (http_json w (req page)) as [e|data] eqn:Hhttp.
  { left. eexists. by apply loop_transport. }
  destruct (Dart.bad_status (get data (py "status"))) eqn:Hstatus.
  { left. eexists. by apply (loop_refused _ _ _ _ _ _ _ _ _ _ _ data). }
  assert (success page data) as Hsucc by done.
  destruct (Dart.page_list data) as [e|items] eqn:Hlist.
  { left. eexists. by apply (loop_bad_list _ _ _ _ data). }
  destruct (Dart.declared_total w data) as [e|total] eqn:Htotal.
  { left. eexists. by apply (loop_bad_total _ _ _ _ data items). }
  assert (ok page items total) as Hok by (by exists data).
  destruct (Z_lt_le_dec page total).
  - right. eexists. by apply (loop_next _ _ _ _ _ _ _ _ _ _ _ items total).
  - left. eexists. by apply (loop_last _ _ _ _ _ _ _ _ _ _ _ items total).
Qed.

Lemma loop_requests fuel :
  ∀ page filings log out log',
    loop fuel page filings log = Some (out, log') →
    ∃ m : nat, (1 ≤ m ≤ fuel)%nat ∧ log' = log ++ map req (seqZ page (Z.of_nat m)).
Proof.
  induction fuel as [|fuel IH]; intros page filings log out log' Hrun; [done|].
  destruct (loop_step fuel page filings log) as [[out' Hend] | [filings' Hnext]].
  - rewrite Hend in Hrun. injection Hrun as _ <-.
    exists 1%nat. split; [lia|]. by rewrite seqZ_cons by done.
  - rewrite Hnext in Hrun. destruct (IH _ _ _ _ _ Hrun) as (m & Hm & ->).
    exists (S m). split; [lia|].
    rewrite Nat2Z.inj_succ, (seqZ_cons page) by lia. rewrite Z.pred_succ.
    cbn [map]. rewrite <- app_assoc. cbn [app].
    by replace (Z.succ page) with (page + 1) by lia.
Qed.

(** X1: whatever the service answers and however the search ends, the
    requests it has issued are those for the pages 1, 2, ..., m in this
    order, for some m bounded by the iterations run: no page is requested
    twice, skipped or requested out of order. *)
Theorem search_filings_requests_consecutive fuel log out log' :
  search fuel log = Some (out, log') →
  ∃ m : nat, (m ≤ fuel)%nat ∧ log' = log ++ map req (seqZ 1 (Z.of_nat m)).
Proof.
  unfold Dart.search_filings. destruct (negb (nonempty corp_code)).
  - intros [= <- <-]. exists 0%nat. split; [lia|]. by rewrite app_nil_r.
  - intros Hrun. destruct (loop_requests _ _ _ _ _ _ Hrun) as (m & Hm & ->).
    exists m. split; [lia|done].
Qed.

(** X2: the loop has no ceiling of its own: against a service whose every
    page declares a total beyond that page, the search never returns,
    whatever the number of iterations it is allowed. *)
Theorem search_filings_unbounded (items_of : Z → list pyval) (total_of : Z → Z) :
  corp_code ≠ [] →
  (∀ j, 1 ≤ j → ok j (items_of j) (total_of j) ∧ j < total_of j) →
  ∀ fuel log, search fuel log = None.
Proof.
  intros Hcode Hpages fuel log. rewrite search_enters_loop by done.
  replace fuel with (fuel + 0)%nat by lia.
  rewrite (loop_run _ _ _ _ _ _ _ items_of total_of); [done|].
  intros j Hj. apply Hpages. lia.
Qed.

(** X3: the search ends at the first page whose own declared total does
    not exceed its page number, whatever the earlier pages declared: it
    returns the items of the pages 1..k in order, having requested exactly
    these pages. *)
Theorem search_filings_stops_at_final_page
    (items_of : Z → list pyval) (total_of : Z → Z) (k fuel : nat) log :
  corp_code ≠ [] → (1 ≤ k ≤ fuel)%nat →
  (∀ j, 1 ≤ j < Z.of_nat k → ok j (items_of j) (total_of j) ∧ j < total_of j) →
  ok (Z.of_nat k) (items_of (Z.of_nat k)) (total_of (Z.of_nat k)) →
  total_of (Z.of_nat k) ≤ Z.of_nat k →
  search fuel log
  = Some (inr (concat (map items_of (seqZ 1 (Z.of_nat k)))),
          log ++ map req (seqZ 1 (Z.of_nat k))).
Proof.
  intros Hcode [Hk Hfuel] Hpages Hlast Hfinal.
  rewrite search_enters_loop by done.
  destruct k as [|m]; [lia|].
  replace fuel with (m + S (fuel - S m))%nat by lia.
  rewrite (loop_run _ _ _ _ _ _ _ items_of total_of).
  2:{ intros j Hj. apply Hpages. lia. }
  replace (1 + Z.of_nat m) with (Z.of_nat (S m)) by lia.
  rewrite (loop_last _ _ _ _ _ _ _ _ _ _ _ _ _ Hlast Hfinal).
  rewrite seqZ_S, !map_app, concat_app. cbn [map concat].
  replace (1 + Z.of_nat m) with (Z.of_nat (S m)) by lia.
  by rewrite !app_nil_r, <- !app_assoc.
Qed.

(** X4: a transport failure on page k is not retried and not caught: the
    search ends with that failure, returns no items, and the request for
    page k is the last one issued. *)
Theorem search_filings_transport_failure
    (items_of : Z → list pyval) (total_of : Z → Z) (k fuel : nat) e log :
  corp_code ≠ [] → (1 ≤ k ≤ fuel)%nat →
  (∀ j, 1 ≤ j < Z.of_nat k → ok j (items_of j) (total_of j) ∧ j < total_of j) →
  http_json w (req (Z.of_nat k)) = inl e →
  search fuel log
  = Some (inl (Transport e), log ++ map req (seqZ 1 (Z.of_nat k))).
Proof.
  intros Hcode [Hk Hfuel] Hpages Hhttp.
  rewrite search_enters_loop by done.
  destruct k as [|m]; [lia|].
  replace fuel with (m + S (fuel - S m))%nat by lia.
  rewrite (loop_run _ _ _ _ _ _ _ items_of total_of).
  2:{ intros j Hj. apply Hpages. lia. }
  replace (1 + Z.of_nat m) with (Z.of_nat (S m)) by lia.
  rewrite (loop_transport _ _ _ _ _ Hhttp).
  rewrite seqZ_S, map_app. cbn [map].
  replace (1 + Z.of_nat m) with (Z.of_nat (S m)) by lia.
  by rewrite <- app_assoc.
Qed.

(** X5: a success response on page k whose list cannot be iterated, or
    whose total_page cannot be converted by int, makes the search fail with
    the interpreter's error; the items of the earlier pages are lost and no
    further page is requested. *)
Theorem search_filings_malformed_page
    (items_of : Z → list pyval) (total_of : Z → Z) (k fuel : nat) data e log :
  corp_code ≠ [] → (1 ≤ k ≤ fuel)%nat →
  (∀ j, 1 ≤ j < Z.of_nat k → ok j (items_of j) (total_of j) ∧ j < total_of j) →
  success (Z.of_nat k) data →
  (Dart.page_list data = inl e
   ∨ ∃ items, Dart.page_list data = inr items ∧ Dart.declared_total w data = inl e) →
  search fuel log
  = Some (inl e, log ++ map req (seqZ 1 (Z.of_nat k))).
Proof.
  intros Hcode [Hk Hfuel] Hpages Hsucc Hbad.
  rewrite search_enters_loop by done.
  destruct k as [|m]; [lia|].
  replace fuel with (m + S (fuel - S m))%nat by lia.
  rewrite (loop_run _ _ _ _ _ _ _ items_of total_of).
  2:{ intros j Hj. apply Hpages. lia. }
  replace (1 + Z.of_nat m) with (Z.of_nat (S m)) by lia.
  assert (∀ filings l, loop (S (fuel - S m)) (Z.of_nat (S m)) filings l
                       = Some (inl e, l ++ [req (Z.of_nat (S m))])) as ->.
  { intros filings l. destruct Hbad as [Hlist | (items & Hlist & Htotal)].
    - by apply (loop_bad_list _ _ _ _ data).
    - by apply (loop_bad_total _ _ _ _ data items). }
  rewrite seqZ_S, map_app. cbn [map].
  replace (1 + Z.of_nat m) with (Z.of_nat (S m)) by lia.
  by rewrite <- app_assoc.
Qed.

End LoopFacts.

Section LoopExamples.
Import Examples.

Lemma search_filings_requests_consecutive_witness :
  ∃ m : nat, (m ≤ 5)%nat
    ∧ [request_for 1; request_for 2] = [] ++ map request_for (seqZ 1 (Z.of_nat m)).
Proof.
  apply (search_filings_requests_consecutive page2_refused client (py "00126380")
           (py "20230101") (py "20231231") (Some (py "B001,I001")) 100 5 []
           (inl (DartError (PStr (py "013")) (PStr (py "no data"))))).
  vm_compute. reflexivity.
Defined.

Lemma endless_page (j : Z) :
  1 ≤ j →
  Dart.page_ok endless client (py "00126380") (py "20230101") (py "20231231")
    (Some (py "B001,I001")) 100 j [filing "again"] (j + 1).
Proof.
  intros Hj. exists [ (py "status", PStr (py "000")); (py "message", PStr (py "정상"));
                      (py "total_page", PInt (j + 1));
                      (py "list", PList [filing "again"]) ].
  split_and!.
  - split; [|reflexivity].
    unfold endless, world_of, http_json. by rewrite paged_request.
  - reflexivity.
  - unfold Dart.declared_total.
    change (get _ (py "total_page")) with (PInt (j + 1)).
    unfold py_or, truthy. destruct (Z.eqb_spec (j + 1) 0); [lia|reflexivity].
Qed.

Lemma search_filings_unbounded_witness : search endless 40 [] = None.
Proof.
  apply (search_filings_unbounded endless client (py "00126380") (py "20230101")
           (py "20231231") (Some (py "B001,I001")) 100
           (λ _, [filing "again"]) (λ j, j + 1)).
  - discriminate.
  - intros j Hj. split; [by apply endless_page | lia].
Defined.

Lemma search_filings_stops_at_final_page_witness :
  search total_dropped 4 []
  = Some (inr [filing "A1"; filing "B1"], [request_for 1; request_for 2]).
Proof.
  apply (search_filings_stops_at_final_page total_dropped client (py "00126380")
           (py "20230101") (py "20231231") (Some (py "B001,I001")) 100
           (λ j, if j =? 1 then [filing "A1"] else [filing "B1"])
           (λ j, if j =? 1 then 3 else 1) 2 4 []).
  - discriminate.
  - lia.
  - intros j Hj. assert (j = 1) as -> by lia.
    split; [|by vm_compute]. eexists; split_and!; [split|..]; reflexivity.
  - eexists; split_and!; [split|..]; reflexivity.
  - by vm_compute.
Defined.

Lemma search_filings_transport_failure_witness :
  search page2_down 5 []
  = Some (inl (Transport URLError), [request_for 1; request_for 2]).
Proof.
  apply (search_filings_transport_failure page2_down client (py "00126380")
           (py "20230101") (py "20231231") (Some (py "B001,I001")) 100
           (λ _, [filing "A1"]) (λ _, 3) 2 5 URLError []).
  - discriminate.
  - lia.
  - intros j Hj. assert (j = 1) as -> by lia.
    split; [|lia]. eexists; split_and!; [split|..]; reflexivity.
  - reflexivity.
Defined.

Lemma search_filings_malformed_page_witness :
  search list_is_number 5 []
  = Some (inl (Builtin TypeError), [request_for 1; request_for 2]).
Proof.
  apply (search_filings_malformed_page list_is_number client (py "00126380")
           (py "20230101") (py "20231231") (Some (py "B001,I001")) 100
           (λ _, [filing "A1"]) (λ _, 3) 2 5
           [ (py "status", PStr (py "000")); (py "total_page", PInt 3);
             (py "list", PInt 7) ]
           (Builtin TypeError) []).
  - discriminate.
  - lia.
  - intros j Hj. assert (j = 1) as -> by lia.
    split; [|lia]. eexists; split_and!; [split|..]; reflexivity.
  - split; reflexivity.
  - left. reflexivity.
Defined.

End LoopExamples.

(* ===================================================================== *)
(** * More on the registry: the parsed document and the index *)
(* ===================================================================== *)

Section RegistryFacts.

Lemma or_str_nil (s : pystr) : or_str (Some s) [] = s.
Proof. by destruct s. Qed.

Lemma index_entry_unindexed index (entry : dict pystr) :
  Dart.indexed entry = false → Dart.index_entry index entry = index.
Proof.
  unfold Dart.indexed, Dart.index_entry.
  fold (Dart.entry_ticker entry). fold (Dart.entry_code entry).
  by destruct (nonempty (Dart.entry_ticker entry)), (nonempty (Dart.entry_code entry)).
Qed.

Lemma index_entry_indexed index (entry : dict pystr) :
  Dart.indexed entry = true →
  Dart.index_entry index entry = <[Dart.entry_ticker entry := entry]> index.
Proof.
  unfold Dart.indexed, Dart.index_entry.
  fold (Dart.entry_ticker entry). fold (Dart.entry_code entry).
  by destruct (nonempty (Dart.entry_ticker entry)), (nonempty (Dart.entry_code entry)).
Qed.

Lemma indexed_spec (entry : dict pystr) :
  Dart.indexed entry = true
  ↔ Dart.entry_ticker entry ≠ [] ∧ Dart.entry_code entry ≠ [].
Proof.
  unfold Dart.indexed. by rewrite andb_true_iff, !nonempty_true.
Qed.

(** X6: a ticker is a key of the index exactly when some entry with a
    non-blank ticker and a non-blank code carries it (after stripping);
    in particular a ticker whose entries all lack a code is not found. *)
Theorem build_corp_index_keys (codes : list (dict pystr)) (t : pystr) :
  is_Some (Dart.build_corp_index codes !! t)
  ↔ ∃ entry, entry ∈ codes ∧ Dart.indexed entry = true ∧ Dart.entry_ticker entry = t.
Proof.
  rewrite build_corp_index_lookup, last_is_Some. split.
  - intros Hne.
    destruct (filter _ codes) as [|entry l] eqn:E; [done|].
    assert (entry ∈ filter (λ e, Dart.indexed e = true ∧ Dart.entry_ticker e = t) codes)
      as Hin by (rewrite E; left).
    apply list_elem_of_filter in Hin as [[? ?] ?]. by exists entry.
  - intros (entry & Hin & Hidx & Ht) E.
    assert (entry ∈ filter (λ e, Dart.indexed e = true ∧ Dart.entry_ticker e = t) codes)
      as Hf by (by apply list_elem_of_filter).
    rewrite E in Hf. by apply elem_of_nil in Hf.
Qed.

(** X7: indexing two batches one after the other gives the index of the
    second batch, completed by the index of the first for the tickers the
    second does not hold: later entries override earlier ones. *)
Theorem build_corp_index_app (codes1 codes2 : list (dict pystr)) (t : pystr) :
  Dart.build_corp_index (codes1 ++ codes2) !! t
  = match Dart.build_corp_index codes2 !! t with
    | Some entry => Some entry
    | None => Dart.build_corp_index codes1 !! t
    end.
Proof.
  by rewrite !build_corp_index_lookup, filter_app, last_app.
Qed.

(** X8: entries with a blank ticker or a blank code have no effect at all:
    the index is the same as the index of the remaining entries. *)
Theorem build_corp_index_ignores_blank (codes : list (dict pystr)) :
  Dart.build_corp_index codes
  = Dart.build_corp_index (filter (λ e, Dart.indexed e = true) codes).
Proof.
  induction codes as [|entry codes IH] using rev_ind; [done|].
  rewrite filter_app, filter_cons, filter_nil.
  destruct (decide (Dart.indexed entry = true)) as [Hidx|Hidx].
  - by rewrite !build_corp_index_snoc, IH.
  - rewrite app_nil_r, build_corp_index_snoc, index_entry_unindexed; [done|].
    by destruct (Dart.indexed entry).
Qed.

Lemma corp_codes_of_tree_map (tree : Dart.element) :
  Dart.corp_codes_of_tree tree = map Dart.corp_record (Dart.iter (py "list") tree).
Proof.
  unfold Dart.corp_codes_of_tree.
  induction (Dart.iter (py "list") tree) as [|e l IH] using rev_ind; [done|].
  by rewrite foldl_app, map_app, IH.
Qed.



Lemma corp_record_ticker (e : Dart.element) :
  dict_get (py "stock_code") (Dart.corp_record e)
  = Some (Dart.entry_ticker (Dart.corp_record e)).
Proof.
  unfold Dart.entry_ticker.
  change (dict_get (py "stock_code") (Dart.corp_record e))
    with (Some (strip (Dart.findtext e (py "stock_code") []))).
  by rewrite or_str_nil, strip_idemp.
Qed.

Lemma corp_record_code (e : Dart.element) :
  dict_get (py "corp_code") (Dart.corp_record e)
  = Some (Dart.entry_code (Dart.corp_record e)).
Proof.
  unfold Dart.entry_code.
  change (dict_get (py "corp_code") (Dart.corp_record e))
    with (Some (strip (Dart.findtext e (py "corp_code") []))).
  by rewrite or_str_nil, strip_idemp.
Qed.

Lemma index_of_tree_entry (tree : Dart.element) (t : pystr) entry :
  Dart.build_corp_index (Dart.corp_codes_of_tree tree) !! t = Some entry →
  entry ∈ Dart.corp_codes_of_tree tree
  ∧ dict_get (py "stock_code") entry = Some t ∧ t ≠ []
  ∧ ∃ code, dict_get (py "corp_code") entry = Some code ∧ code ≠ [].
Proof.
  rewrite build_corp_index_lookup. intros Hlast.
  apply last_Some_elem_of, list_elem_of_filter in Hlast as [[Hidx Ht] Hin].
  split; [done|].
  pose proof Hin as Hrec. rewrite corp_codes_of_tree_map in Hrec.
  apply list_elem_of_fmap in Hrec as (e & -> & _).
  apply indexed_spec in Hidx as [Hticker Hcode].
  split_and!.
  - rewrite <- Ht. apply corp_record_ticker.
  - rewrite <- Ht. exact Hticker.
  - exists (Dart.entry_code (Dart.corp_record e)).
    split; [apply corp_record_code | exact Hcode].
Qed.

(** X10: in the index built from the registry document, every key is the
    stock_code field of its entry, letter for letter, and is not empty;
    the entry is one of the document's records and its corp_code is not
    empty either. *)
Theorem build_corp_index_of_tree (tree : Dart.element) (t : pystr) entry :
  Dart.build_corp_index (Dart.corp_codes_of_tree tree) !! t = Some entry →
  entry ∈ Dart.corp_codes_of_tree tree
  ∧ dict_get (py "stock_code") entry = Some t ∧ t ≠ []
  ∧ ∃ code, dict_get (py "corp_code") entry = Some code ∧ code ≠ [].
Proof. apply index_of_tree_entry. Qed.


Lemma build_corp_index_of_tree_witness :
  Examples.sample_record ∈ Dart.corp_codes_of_tree Examples.registry_tree
  ∧ dict_get (py "stock_code") Examples.sample_record = Some (py "005930")
  ∧ py "005930" ≠ []
  ∧ ∃ code, dict_get (py "corp_code") Examples.sample_record = Some code ∧ code ≠ [].
Proof.
  apply (build_corp_index_of_tree Examples.registry_tree).
  vm_compute. reflexivity.
Defined.

End RegistryFacts.

(* ===================================================================== *)
(** * More on the constituents *)
(* ===================================================================== *)

Section ConstituentFacts.

Lemma opt_truthy_Some (x : option pystr) :
  opt_truthy x = true ↔ ∃ s, x = Some s ∧ s ≠ [].
Proof.
  destruct x as [[|c s]|]; cbn; split; try discriminate; try (intros (? & ? & ?); congruence).
  intros _. by exists (c :: s).
Qed.

(** What the loop body does with one raw row. *)
Lemma normalize_row_spec normalized (entry : dict pystr) :
  Krx.normalize_row normalized entry
  = if opt_truthy (Krx.raw_ticker entry) && opt_truthy (Krx.raw_name entry)
    then normalized ++
           [ [ (py "stock_code", strip (default [] (Krx.raw_ticker entry)));
               (py "name", strip (default [] (Krx.raw_name entry)));
               (py "market", Krx.row_market entry) ] ]
    else normalized.
Proof.
  unfold Krx.normalize_row.
  fold (Krx.raw_ticker entry). fold (Krx.raw_name entry). fold (Krx.row_market entry).
  by destruct (opt_truthy (Krx.raw_ticker entry)), (opt_truthy (Krx.raw_name entry)).
Qed.

Lemma normalize_loop_acc (entries : list (dict pystr)) :
  ∀ normalized,
    foldl Krx.normalize_row normalized entries
    = normalized ++ foldl Krx.normalize_row [] entries.
Proof.
  induction entries as [|entry entries IH] using rev_ind; intros normalized.
  - by rewrite app_nil_r.
  - rewrite !foldl_app. cbn [foldl]. rewrite !normalize_row_spec, IH.
    destruct (_ && _); [by rewrite app_assoc | done].
Qed.

(** X11: the normalization works row by row and keeps the order: the
    result for two batches in a row is the result for the first followed
    by the result for the second. *)
Theorem normalize_constituents_app (entries1 entries2 : list (dict pystr)) :
  Krx.normalize_constituents (entries1 ++ entries2)
  = Krx.normalize_constituents entries1 ++ Krx.normalize_constituents entries2.
Proof.
  unfold Krx.normalize_constituents. by rewrite foldl_app, normalize_loop_acc.
Qed.

Lemma normalized_row_origin (entries : list (dict pystr)) row :
  row ∈ Krx.normalize_constituents entries →
  ∃ entry ticker name,
    entry ∈ entries
    ∧ Krx.raw_ticker entry = Some ticker ∧ ticker ≠ []
    ∧ Krx.raw_name entry = Some name ∧ name ≠ []
    ∧ Krx.row_market entry ≠ []
    ∧ row = [ (py "stock_code", strip ticker); (py "name", strip name);
              (py "market", Krx.row_market entry) ].
Proof.
  unfold Krx.normalize_constituents.
  induction entries as [|entry entries IH] using rev_ind; intros Hin.
  - by apply elem_of_nil in Hin.
  - rewrite foldl_app in Hin. cbn [foldl] in Hin. rewrite normalize_row_spec in Hin.
    destruct (opt_truthy (Krx.raw_ticker entry)) eqn:Ht;
      [destruct (opt_truthy (Krx.raw_name entry)) eqn:Hn|]; cbn [andb] in Hin.
    + apply elem_of_app in Hin as [Hin | Hin].
      * destruct (IH Hin) as (e & t & n & He & H). exists e, t, n.
        split; [apply elem_of_app; by left | done].
      * apply list_elem_of_singleton in Hin as ->.
        apply opt_truthy_Some in Ht as (t & Ht & Htne).
        apply opt_truthy_Some in Hn as (n & Hn & Hnne).
        exists entry, t, n. rewrite Ht, Hn.
        split_and!; try done.
        -- apply elem_of_app. right. left.
        -- unfold Krx.row_market.
           by destruct (opt_or _ _) as [[|? ?]|].
    + destruct (IH Hin) as (e & t & n & He & H). exists e, t, n.
      split; [apply elem_of_app; by left | done].
    + destruct (IH Hin) as (e & t & n & He & H). exists e, t, n.
      split; [apply elem_of_app; by left | done].
Qed.

(** X12: every normalized row stems from an input row whose ticker chain
    and name chain each resolve to a non-empty raw string; the row has
    exactly the keys stock_code, name and market, holding the stripped
    ticker, the stripped name and a market that is never empty. *)
Theorem normalize_constituents_rows (entries : list (dict pystr)) row :
  row ∈ Krx.normalize_constituents entries →
  ∃ entry ticker name,
    entry ∈ entries
    ∧ Krx.raw_ticker entry = Some ticker ∧ ticker ≠ []
    ∧ Krx.raw_name entry = Some name ∧ name ≠ []
    ∧ Krx.row_market entry ≠ []
    ∧ row = [ (py "stock_code", strip ticker); (py "name", strip name);
              (py "market", Krx.row_market entry) ].
Proof. apply normalized_row_origin. Qed.

(** X13: the closing-price field ranks before the company-code field in
    the ticker chain: a row with no (or an empty) ISU_SRT_CD and a
    non-empty TDD_CLSPRC is given the stripped TDD_CLSPRC as its ticker,
    whatever its CMP_CD holds. *)
Theorem normalize_constituents_price_as_ticker (entry : dict pystr) price name :
  opt_truthy (dict_get (py "ISU_SRT_CD") entry) = false →
  dict_get (py "TDD_CLSPRC") entry = Some price → price ≠ [] →
  Krx.raw_name entry = Some name → name ≠ [] →
  Krx.normalize_constituents [entry]
  = [ [ (py "stock_code", strip price); (py "name", strip name);
        (py "market", Krx.row_market entry) ] ].
Proof.
  intros Hisu Hprice Hpne Hname Hnne.
  unfold Krx.normalize_constituents. cbn [foldl]. rewrite normalize_row_spec.
  assert (Krx.raw_ticker entry = Some price) as ->.
  { unfold Krx.raw_ticker, opt_or. rewrite Hisu, Hprice. by destruct price. }
  rewrite Hname. by destruct price, name.
Qed.

End ConstituentFacts.

Section FetchFacts.
Context (w : world) (trade_date : option pystr).

(** X14: a transport failure of the constituent request is passed on as
    it is (it is not turned into [KrxError]); one request was issued. *)
Theorem fetch_kospi200_transport_failure e log :
  http_json w (Krx.constituents_request w trade_date) = inl e →
  Krx.fetch_kospi200 w trade_date log
  = Some (inl (Transport e), log ++ [Krx.constituents_request w trade_date]).
Proof.
  intros Hhttp. unfold Krx.fetch_kospi200, Krx._post_json, bind, fetch_json.
  unfold Krx.constituents_request in Hhttp. by rewrite Hhttp.
Qed.

(** X15: when the result block is present but null or otherwise falsy,
    the fetch succeeds with no rows: only a missing key is an error. *)
Theorem fetch_kospi200_falsy_block data block log :
  http_json w (Krx.constituents_request w trade_date) = inr data →
  dict_get (py "OutBlock_1") data = Some block → truthy block = false →
  Krx.fetch_kospi200 w trade_date log
  = Some (inr [], log ++ [Krx.constituents_request w trade_date]).
Proof.
  intros Hhttp Hblock Hfalsy.
  unfold Krx.fetch_kospi200, Krx._post_json, bind, fetch_json.
  unfold Krx.constituents_request in Hhttp. rewrite Hhttp.
  unfold dict_mem, get, py_or. rewrite Hblock.
  change (default PNone (Some block)) with block. by rewrite Hfalsy.
Qed.

End FetchFacts.

Section ConstituentExamples.
Import Examples.

Lemma normalize_constituents_rows_witness :
  ∃ entry ticker name,
    entry ∈ raw_rows
    ∧ Krx.raw_ticker entry = Some ticker ∧ ticker ≠ []
    ∧ Krx.raw_name entry = Some name ∧ name ≠ []
    ∧ Krx.row_market entry ≠ []
    ∧ [ (py "stock_code", py "005930"); (py "name", py "Sample");
        (py "market", py "KOSPI200") ]
      = [ (py "stock_code", strip ticker); (py "name", strip name);
          (py "market", Krx.row_market entry) ].
Proof.
  apply (normalize_constituents_rows raw_rows).
  vm_compute. left.
Defined.

Lemma normalize_constituents_price_as_ticker_witness :
  Krx.normalize_constituents
    [ [ (py "TDD_CLSPRC", py "71,000"); (py "CMP_CD", py "000660");
        (py "CMP_KOR", py "Other") ] ]
  = [ [ (py "stock_code", strip (py "71,000")); (py "name", strip (py "Other"));
        (py "market",
          Krx.row_market [ (py "TDD_CLSPRC", py "71,000"); (py "CMP_CD", py "000660");
                           (py "CMP_KOR", py "Other") ]) ] ].
Proof.
  apply normalize_constituents_price_as_ticker.
  - vm_compute. reflexivity.
  - vm_compute. reflexivity.
  - discriminate.
  - vm_compute. reflexivity.
  - discriminate.
Defined.

Lemma fetch_kospi200_transport_failure_witness :
  Krx.fetch_kospi200 krx_down None []
  = Some (inl (Transport (HTTPError 503)), [] ++ [Krx.constituents_request krx_down None]).
Proof. apply fetch_kospi200_transport_failure. reflexivity. Defined.

Lemma fetch_kospi200_falsy_block_witness :
  Krx.fetch_kospi200 krx_null_block None []
  = Some (inr [], [] ++ [Krx.constituents_request krx_null_block None]).
Proof.
  apply (fetch_kospi200_falsy_block krx_null_block None krx_null_block_data PNone).
  - reflexivity.
  - vm_compute. reflexivity.
  - reflexivity.
Defined.

End ConstituentExamples.

(* ===================================================================== *)
(** * More on the evaluation *)
(* ===================================================================== *)

Section EvaluationFacts.
Context (w : world) (self : Checker.DividendPolicyChecker).

Local Abbreviation search_for corp :=
  (Dart.search_filings w (Checker.dart self)
     (or_str (dict_get (py "corp_code") corp) [])
     (Checker.start_date self) (Checker.end_date self)
     (Some (py "B001,I001")) 100).

(** X16: a company record without a corp_code, or with an empty one, is
    refused with the validation error of the search before any request is
    sent. *)
Theorem evaluate_company_requires_corp_code (corp : dict pystr) fuel log :
  opt_truthy (dict_get (py "corp_code") corp) = false →
  Checker.evaluate_company w self corp fuel log
  = Some (inl (ValueError (py "corp_code is required")), log).
Proof.
  intros Hcode. unfold Checker.evaluate_company, bind.
  assert (or_str (dict_get (py "corp_code") corp) [] = []) as ->
    by (by destruct (dict_get (py "corp_code") corp) as [[|? ?]|]).
  reflexivity.
Qed.

(** X17: a failure of the search is passed on unchanged, with the same
    requests issued, and a search that does not return keeps the
    evaluation from returning. *)
Theorem evaluate_company_propagates (corp : dict pystr) fuel log :
  (∀ e log', search_for corp fuel log = Some (inl e, log') →
             Checker.evaluate_company w self corp fuel log = Some (inl e, log'))
  ∧ (search_for corp fuel log = None →
     Checker.evaluate_company w self corp fuel log = None).
Proof.
  unfold Checker.evaluate_company, bind.
  split; [intros e log' Hsearch | intros Hsearch]; by rewrite Hsearch.
Qed.

Lemma select_matches_error (before after : list pyval) item v e :
  (∀ x, x ∈ before → is_Some (Checker.title_of x)) →
  method_get item (py "report_nm") (PStr []) = inr v →
  Checker._matches_policy self v = inl e →
  Checker.select_matches self (before ++ item :: after) = inl e.
Proof.
  intros Hbefore Hget Hmatch.
  induction before as [|x before IH]; cbn [app Checker.select_matches].
  - by rewrite Hget, Hmatch.
  - destruct (Hbefore x) as [title Htitle]; [left|].
    assert (method_get x (py "report_nm") (PStr []) = inr (PStr title)) as ->.
    { unfold Checker.title_of in Htitle. destruct x; try discriminate.
      cbn [method_get]. destruct (get_default _ _ _); try discriminate. congruence. }
    unfold Checker._matches_policy at 1. rewrite any_keyword_in_str.
    rewrite IH; [done|]. intros ? ?. apply Hbefore. by right.
Qed.

(** X18: the default title "" only covers a missing report_nm: a fetched
    disclosure whose report_nm is null makes the evaluation fail with
    TypeError (when at least one keyword is configured), although the
    search itself succeeded. *)
Theorem evaluate_company_null_title
    (corp : dict pystr) fuel log (before after : list pyval) d log' :
  search_for corp fuel log = Some (inr (before ++ PDict d :: after), log') →
  (∀ x, x ∈ before → is_Some (Checker.title_of x)) →
  dict_get (py "report_nm") d = Some PNone →
  Checker.keywords self ≠ [] →
  Checker.evaluate_company w self corp fuel log
  = Some (inl (Builtin TypeError), log').
Proof.
  intros Hsearch Hbefore Hnull Hkw.
  unfold Checker.evaluate_company, bind. rewrite Hsearch.
  rewrite (select_matches_error before after (PDict d) PNone (Builtin TypeError));
    [done..| |].
  - cbn [method_get]. unfold get_default. by rewrite Hnull.
  - unfold Checker._matches_policy. by destruct (Checker.keywords self).
Qed.

(** X19: without keywords nothing matches, whatever the title is; with an
    empty string among the keywords every title string matches. *)
Theorem matches_policy_degenerate_keywords :
  (Checker.keywords self = [] →
   ∀ v, Checker._matches_policy self v = inr false)
  ∧ ([] ∈ Checker.keywords self →
     ∀ title, Checker._matches_policy self (PStr title) = inr true).
Proof.
  unfold Checker._matches_policy. split.
  - by intros ->.
  - intros Hin title. rewrite any_keyword_in_str. f_equal.
    apply existsb_exists. exists []. split; [by apply list_elem_of_In|].
    by destruct title.
Qed.

Lemma evaluate_company_fields (corp : dict pystr) fuel log r log' :
  Checker.evaluate_company w self corp fuel log = Some (inr r, log') →
  Checker.corp_code r = or_str (dict_get (py "corp_code") corp) []
  ∧ Checker.stock_code r = or_str (dict_get (py "stock_code") corp) []
  ∧ Checker.has_post_dividend_provision r
    = Checker.list_truthy (Checker.matching_reports r).
Proof.
  unfold Checker.evaluate_company, bind.
  destruct (Dart.search_filings _ _ _ _ _ _ _ _ _) as [[[e|filings] l]|]; try discriminate.
  destruct (Checker.select_matches self filings) as [e|matches]; cbn [lift]; try discriminate.
  by intros [= <- <-].
Qed.

Lemma evaluate_all_loop_acc (corporations : list (dict pystr)) fuel :
  ∀ results log,
    Checker.evaluate_all_loop w self corporations results fuel log
    = match Checker.evaluate_all w self corporations fuel log with
      | None => None
      | Some (inl e, log') => Some (inl e, log')
      | Some (inr rs, log') => Some (inr (results ++ rs), log')
      end.
Proof.
  unfold Checker.evaluate_all.
  induction corporations as [|corp rest IH]; intros results log.
  - cbn. by rewrite app_nil_r.
  - cbn [Checker.evaluate_all_loop]. unfold bind.
    destruct (Checker.evaluate_company w self corp fuel log) as [[[e|r] l]|]; [done| |done].
    rewrite (IH (results ++ [r])), (IH ([] ++ [r])).
    destruct (Checker.evaluate_all_loop w self rest [] fuel l) as [[[e|rs] l']|]; [done| |done].
    by rewrite <- app_assoc.
Qed.

(** X20: evaluating two batches of companies in a row is evaluating the
    first, then the second from the request log the first left, and
    joining the results; a failure in the first batch ends the run before
    the second is touched. *)
Theorem evaluate_all_app (corps1 corps2 : list (dict pystr)) fuel log :
  Checker.evaluate_all w self (corps1 ++ corps2) fuel log
  = match Checker.evaluate_all w self corps1 fuel log with
    | None => None
    | Some (inl e, log1) => Some (inl e, log1)
    | Some (inr results1, log1) =>
        match Checker.evaluate_all w self corps2 fuel log1 with
        | None => None
        | Some (inl e, log2) => Some (inl e, log2)
        | Some (inr results2, log2) => Some (inr (results1 ++ results2), log2)
        end
    end.
Proof.
  revert log. induction corps1 as [|corp rest IH]; intros log.
  - cbn [app].
    change (Checker.evaluate_all w self [] fuel log)
      with (Some (@inr exn _ (@nil Checker.CompanyResult), log)).
    cbv iota beta.
    destruct (Checker.evaluate_all w self corps2 fuel log) as [[[e|rs] l]|];
      reflexivity.
  - change ((corp :: rest) ++ corps2) with (corp :: (rest ++ corps2)).
    unfold Checker.evaluate_all at 1 2. cbn [Checker.evaluate_all_loop]. unfold bind.
    destruct (Checker.evaluate_company w self corp fuel log) as [[[e|r] l]|]; [done| |done].
    rewrite !evaluate_all_loop_acc, IH.
    destruct (Checker.evaluate_all w self rest fuel l) as [[[e|rs] l']|]; [done| |done].
    destruct (Checker.evaluate_all w self corps2 fuel l') as [[[e|rs2] l'']|]; [done| |done].
    by rewrite app_assoc.
Qed.

(** X21: the first company whose evaluation fails ends the batch with that
    failure: the results gathered so far are dropped and no request is
    sent for the companies after it. *)
Theorem evaluate_all_aborts
    (done_ rest : list (dict pystr)) (corp : dict pystr) fuel log0 results log e log' :
  Checker.evaluate_all w self done_ fuel log0 = Some (inr results, log) →
  Checker.evaluate_company w self corp fuel log = Some (inl e, log') →
  Checker.evaluate_all w self (done_ ++ corp :: rest) fuel log0 = Some (inl e, log').
Proof.
  intros Hdone Hcorp.
  assert (Checker.evaluate_all w self (corp :: rest) fuel log = Some (inl e, log')) as Hfail.
  { unfold Checker.evaluate_all. cbn [Checker.evaluate_all_loop]. unfold bind.
    by rewrite Hcorp. }
  revert log0 results Hdone. induction done_ as [|c cs IH]; intros log0 results Hdone.
  - injection Hdone as _ <-. exact Hfail.
  - change ((c :: cs) ++ corp :: rest) with (c :: (cs ++ corp :: rest)).
    unfold Checker.evaluate_all in Hdone |- *.
    cbn [Checker.evaluate_all_loop] in Hdone |- *. unfold bind in Hdone |- *.
    destruct (Checker.evaluate_company w self c fuel log0) as [[[e0|r] l]|]; try discriminate.
    rewrite evaluate_all_loop_acc in Hdone. rewrite evaluate_all_loop_acc.
    destruct (Checker.evaluate_all w self cs fuel l) as [[[e0|rs] l0]|] eqn:Hcs;
      try discriminate.
    injection Hdone as _ <-.
    by rewrite (IH _ _ Hcs).
Qed.

(** X22: a batch that succeeds yields one result per company, in the
    order of the companies, each carrying the codes of its company record
    and a provision flag that is true exactly when the result lists a
    matching report. *)
Theorem evaluate_all_results (corporations : list (dict pystr)) fuel :
  ∀ log results log',
    Checker.evaluate_all w self corporations fuel log = Some (inr results, log') →
    map Checker.corp_code results
    = map (λ corp, or_str (dict_get (py "corp_code") corp) []) corporations
    ∧ map Checker.stock_code results
      = map (λ corp, or_str (dict_get (py "stock_code") corp) []) corporations
    ∧ ∀ r, r ∈ results →
        Checker.has_post_dividend_provision r
        = Checker.list_truthy (Checker.matching_reports r).
Proof.
  induction corporations as [|corp rest IH]; intros log results log' Hall.
  - injection Hall as <- _. split_and!; [done..|]. intros r Hr. by apply elem_of_nil in Hr.
  - unfold Checker.evaluate_all in Hall. cbn [Checker.evaluate_all_loop] in Hall.
    unfold bind in Hall.
    destruct (Checker.evaluate_company w self corp fuel log) as [[[e|r] l]|] eqn:Hcorp;
      try discriminate.
    rewrite evaluate_all_loop_acc in Hall.
    destruct (Checker.evaluate_all w self rest fuel l) as [[[e|rs] l0]|] eqn:Hrest;
      try discriminate.
    injection Hall as <- _.
    destruct (IH _ _ _ Hrest) as (Hcodes & Hstocks & Hflags).
    destruct (evaluate_company_fields _ _ _ _ _ Hcorp) as (Hcode & Hstock & Hflag).
    cbn [app map]. rewrite Hcodes, Hstocks, Hcode, Hstock.
    split_and!; [done..|].
    intros r' Hr'. apply elem_of_cons in Hr' as [-> | Hr']; [done | by apply Hflags].
Qed.

End EvaluationFacts.

Section EvaluationExamples.
Import Examples.

Lemma evaluate_company_requires_corp_code_witness :
  Checker.evaluate_company three_pages checker codeless_corp 3 []
  = Some (inl (ValueError (py "corp_code is required")), []).
Proof.
  apply evaluate_company_requires_corp_code. vm_compute. reflexivity.
Defined.

Lemma evaluate_company_propagates_witness :
  Checker.evaluate_company page2_refused checker sample_corp 5 []
  = Some (inl (DartError (PStr (py "013")) (PStr (py "no data"))),
          [request_for 1; request_for 2]).
Proof.
  apply (proj1 (evaluate_company_propagates page2_refused checker sample_corp 5 [])).
  vm_compute. reflexivity.
Defined.

Lemma evaluate_company_null_title_witness :
  Checker.evaluate_company null_title checker sample_corp 1 []
  = Some (inl (Builtin TypeError), [request_for 1]).
Proof.
  apply (evaluate_company_null_title null_title checker sample_corp 1 []
           [filing "정관변경"] []
           [ (py "rcept_no", PStr (py "20240101000002")); (py "report_nm", PNone) ]).
  - vm_compute. reflexivity.
  - intros x Hx. apply list_elem_of_singleton in Hx as ->. by eexists.
  - vm_compute. reflexivity.
  - discriminate.
Defined.

Lemma matches_policy_degenerate_keywords_witness :
  Checker._matches_policy lenient_checker (PStr (py "실적발표")) = inr true.
Proof.
  apply (proj2 (matches_policy_degenerate_keywords lenient_checker)).
  vm_compute. right. left.
Defined.

Lemma evaluate_all_aborts_witness :
  Checker.evaluate_all page2_refused checker ([] ++ sample_corp :: [sample_corp]) 5 []
  = Some (inl (DartError (PStr (py "013")) (PStr (py "no data"))),
          [request_for 1; request_for 2]).
Proof.
  apply (evaluate_all_aborts page2_refused checker [] [sample_corp] sample_corp 5 [] [] []).
  - reflexivity.
  - vm_compute. reflexivity.
Defined.

Lemma evaluate_all_results_witness :
  map Checker.corp_code [scenario_result; scenario_result]
  = map (λ corp, or_str (dict_get (py "corp_code") corp) []) [sample_corp; sample_corp]
  ∧ map Checker.stock_code [scenario_result; scenario_result]
    = map (λ corp, or_str (dict_get (py "stock_code") corp) []) [sample_corp; sample_corp]
  ∧ ∀ r, r ∈ [scenario_result; scenario_result] →
      Checker.has_post_dividend_provision r
      = Checker.list_truthy (Checker.matching_reports r).
Proof.
  apply (evaluate_all_results two_titles checker [sample_corp; sample_corp] 1 []
           [scenario_result; scenario_result] [request_for 1; request_for 1]).
  vm_compute. reflexivity.
Defined.

End EvaluationExamples.

(* ===================================================================== *)
(** * The join of constituents and registry *)
(* ===================================================================== *)

Section JoinFacts.

Lemma dict_get_set_eq {V} (k : pystr) (v : V) (d : dict V) :
  dict_get k (dict_set k v d) = Some v.
Proof.
  induction d as [|[k' v'] d IH]; cbn [dict_set dict_get].
  - by rewrite decide_True.
  - destruct (decide (k = k')) as [->|Hne]; cbn [dict_get].
    + by rewrite decide_True.
    + by rewrite decide_False.
Qed.

Lemma dict_get_set_ne {V} (k k' : pystr) (v : V) (d : dict V) :
  k ≠ k' → dict_get k (dict_set k' v d) = dict_get k d.
Proof.
  intros Hne. induction d as [|[k'' v''] d IH]; cbn [dict_set dict_get].
  - by rewrite decide_False.
  - destruct (decide (k' = k'')) as [<-|Hne']; cbn [dict_get].
    + by rewrite !decide_False.
    + by rewrite IH.
Qed.

(** The record that the join builds from a constituent and its entry. *)
Local Abbreviation joined item code registry_name :=
  (dict_set (py "corp_name")
     (Main.str_or registry_name (default [] (dict_get (py "name") item)))
     (dict_set (py "corp_code") code item)).

Lemma enrich_row_miss corp_index enriched (item : dict pystr) ticker :
  dict_get (py "stock_code") item = Some ticker →
  corp_index !! ticker = None →
  Main.enrich_row corp_index enriched item = inr enriched.
Proof.
  intros Hticker Hmiss. unfold Main.enrich_row, Main.subscript.
  by rewrite Hticker, Hmiss.
Qed.

Lemma enrich_row_hit corp_index enriched (item : dict pystr) ticker found code rname :
  dict_get (py "stock_code") item = Some ticker →
  corp_index !! ticker = Some found →
  dict_get (py "corp_code") found = Some code →
  dict_get (py "corp_name") found = Some rname →
  Main.enrich_row corp_index enriched item = inr (enriched ++ [joined item code rname]).
Proof.
  intros Hticker Hhit Hcode Hname. unfold Main.enrich_row, Main.subscript.
  rewrite Hticker, Hhit. destruct found as [|kv found]; [discriminate|].
  by rewrite Hcode, Hname.
Qed.

Lemma enrich_loop_snoc corp_index (constituents : list (dict pystr)) item :
  ∀ enriched,
    Main.enrich_loop corp_index (constituents ++ [item]) enriched
    = match Main.enrich_loop corp_index constituents enriched with
      | inl e => inl e
      | inr enriched' => Main.enrich_row corp_index enriched' item
      end.
Proof.
  induction constituents as [|c cs IH]; intros enriched; cbn [app Main.enrich_loop].
  - by destruct (Main.enrich_row corp_index enriched item).
  - destruct (Main.enrich_row corp_index enriched c); [done | apply IH].
Qed.

(** When every constituent has a ticker and every index entry has a code
    and a name, the join goes through, and a record is in its result
    exactly when it is built from a constituent whose ticker the index
    holds. *)
Lemma enrich_spec corp_index (constituents : list (dict pystr)) :
  (∀ item, item ∈ constituents → is_Some (dict_get (py "stock_code") item)) →
  (∀ t found, corp_index !! t = Some found →
     is_Some (dict_get (py "corp_code") found)
     ∧ is_Some (dict_get (py "corp_name") found)) →
  ∃ enriched,
    Main.enrich corp_index constituents = inr enriched
    ∧ (length enriched ≤ length constituents)%nat
    ∧ ∀ r, r ∈ enriched ↔
        ∃ item ticker found code rname,
          item ∈ constituents
          ∧ dict_get (py "stock_code") item = Some ticker
          ∧ corp_index !! ticker = Some found
          ∧ dict_get (py "corp_code") found = Some code
          ∧ dict_get (py "corp_name") found = Some rname
          ∧ r = joined item code rname.
Proof.
  intros Hitems Hindex. unfold Main.enrich.
  induction constituents as [|item constituents IH] using rev_ind.
  - exists []. split_and!; [done..|]. intros r. split.
    + intros Hr. by apply elem_of_nil in Hr.
    + intros (item & ? & ? & ? & ? & Hin & _). by apply elem_of_nil in Hin.
  - destruct IH as (enriched & Hrun & Hlen & Hspec).
    { intros ? ?. apply Hitems, elem_of_app. by left. }
    rewrite enrich_loop_snoc, Hrun.
    destruct (Hitems item) as [ticker Hticker]; [apply elem_of_app; right; left|].
    destruct (corp_index !! ticker) as [found|] eqn:Hlookup.
    + destruct (Hindex _ _ Hlookup) as [[code Hcode] [rname Hname]].
      rewrite (enrich_row_hit _ _ _ _ _ _ _ Hticker Hlookup Hcode Hname).
      eexists. split_and!; [done| |].
      * rewrite !length_app. cbn. lia.
      * intros r. rewrite elem_of_app, list_elem_of_singleton, Hspec. split.
        -- intros [(i & t & f & c & n & Hin & H) | ->].
           ++ exists i, t, f, c, n. split; [apply elem_of_app; by left | done].
           ++ exists item, ticker, found, code, rname.
              split_and!; try done. apply elem_of_app. right. left.
        -- intros (i & t & f & c & n & Hin & Ht & Hf & Hc & Hn & ->).
           apply elem_of_app in Hin as [Hin | Hin].
           ++ left. by exists i, t, f, c, n.
           ++ right. apply list_elem_of_singleton in Hin as ->.
              assert (t = ticker) as -> by congruence.
              assert (f = found) as -> by congruence.
              congruence.
    + rewrite (enrich_row_miss _ _ _ _ Hticker Hlookup).
      exists enriched. split_and!; [done| |].
      * rewrite length_app. cbn. lia.
      * intros r. rewrite Hspec. split.
        -- intros (i & t & f & c & n & Hin & H).
           exists i, t, f, c, n. split; [apply elem_of_app; by left | done].
        -- intros (i & t & f & c & n & Hin & Ht & Hf & H).
           apply elem_of_app in Hin as [Hin | Hin].
           ++ by exists i, t, f, c, n.
           ++ apply list_elem_of_singleton in Hin as ->. congruence.
Qed.

(** X23: when every constituent row has a stock_code and every index
    entry has a corp_code and a corp_name, the join raises no KeyError; a
    record is in the enriched list exactly when it is built from a
    constituent whose ticker is a key of the index (the others are
    dropped), and it is the constituent row with corp_code set to the
    entry's code and corp_name set to the entry's name, or to the
    constituent's own name when the entry's name is empty. *)
Theorem enrich_joins_on_ticker corp_index (constituents : list (dict pystr)) :
  (∀ item, item ∈ constituents → is_Some (dict_get (py "stock_code") item)) →
  (∀ t found, corp_index !! t = Some found →
     is_Some (dict_get (py "corp_code") found)
     ∧ is_Some (dict_get (py "corp_name") found)) →
  ∃ enriched,
    Main.enrich corp_index constituents = inr enriched
    ∧ (length enriched ≤ length constituents)%nat
    ∧ ∀ r, r ∈ enriched ↔
        ∃ item ticker found code rname,
          item ∈ constituents
          ∧ dict_get (py "stock_code") item = Some ticker
          ∧ corp_index !! ticker = Some found
          ∧ dict_get (py "corp_code") found = Some code
          ∧ dict_get (py "corp_name") found = Some rname
          ∧ r = joined item code rname.
Proof. apply enrich_spec. Qed.

Lemma corp_record_name (e : Dart.element) :
  is_Some (dict_get (py "corp_name") (Dart.corp_record e)).
Proof. by eexists. Qed.

(** X24: the pipeline of [main], from the parsed registry document and
    any raw constituent rows to the enriched list, raises no KeyError, and
    every enriched record carries a non-empty corp_code, which is what the
    search requires of a company. *)
Theorem enrich_pipeline_has_codes (tree : Dart.element) (entries : list (dict pystr)) :
  ∃ enriched,
    Main.enrich (Dart.build_corp_index (Dart.corp_codes_of_tree tree))
      (Krx.normalize_constituents entries)
    = inr enriched
    ∧ ∀ r, r ∈ enriched → opt_truthy (dict_get (py "corp_code") r) = true.
Proof.
  destruct (enrich_spec (Dart.build_corp_index (Dart.corp_codes_of_tree tree))
              (Krx.normalize_constituents entries)) as (enriched & Hrun & _ & Hspec).
  - intros item Hin.
    destruct (normalized_row_origin _ _ Hin) as (e & t & n & _ & _ & _ & _ & _ & _ & ->).
    by eexists.
  - intros t found Hfound.
    destruct (index_of_tree_entry _ _ _ Hfound) as (Hin & _ & _ & code & Hcode & _).
    split; [by eexists|].
    rewrite corp_codes_of_tree_map in Hin.
    apply list_elem_of_fmap in Hin as (e & -> & _). apply corp_record_name.
  - exists enriched. split; [done|]. intros r Hr.
    apply Hspec in Hr as (item & t & found & code & rname & _ & _ & Hfound & Hcode & _ & ->).
    destruct (index_of_tree_entry _ _ _ Hfound) as (_ & _ & _ & code' & Hcode' & Hne).
    assert (code' = code) as -> by congruence.
    rewrite dict_get_set_ne, dict_get_set_eq.
    + by apply opt_truthy_Some; exists code.
    + intros Heq. by vm_compute in Heq.
Qed.

Lemma enrich_joins_on_ticker_witness :
  ∃ enriched,
    Main.enrich Examples.small_index Examples.normalized_rows = inr enriched
    ∧ (length enriched ≤ length Examples.normalized_rows)%nat
    ∧ ∀ r, r ∈ enriched ↔
        ∃ item ticker found code rname,
          item ∈ Examples.normalized_rows
          ∧ dict_get (py "stock_code") item = Some ticker
          ∧ Examples.small_index !! ticker = Some found
          ∧ dict_get (py "corp_code") found = Some code
          ∧ dict_get (py "corp_name") found = Some rname
          ∧ r = joined item code rname.
Proof.
  apply enrich_joins_on_ticker.
  - intros item Hin. unfold Examples.normalized_rows in Hin.
    repeat (apply elem_of_cons in Hin as [-> | Hin]; [by eexists|]).
    by apply elem_of_nil in Hin.
  - intros t found Hfound. unfold Examples.small_index in Hfound.
    apply lookup_singleton_Some in Hfound as [_ <-]. split; by eexists.
Defined.

End JoinFacts.

(* ===================================================================== *)
(** * The failures of a search *)
(* ===================================================================== *)

Section SearchErrors.
Context (w : world) (self : Dart.DartClient).
Context (corp_code start_date end_date : pystr).
Context (detail_types : option pystr) (page_count : Z).

Local Abbreviation req := (Dart.page_request self corp_code start_date end_date detail_types page_count).
Local Abbreviation loop := (Dart.search_loop w self corp_code start_date end_date detail_types page_count).
Local Abbreviation search := (Dart.search_filings w self corp_code start_date end_date detail_types page_count).

Lemma iterate_error v e : iterate v = inl e → e = Builtin TypeError.
Proof. destruct v; cbn; congruence. Qed.

Lemma py_int_error v e : py_int (int_of_str w) v = inl e → ∃ b, e = Builtin b.
Proof.
  destruct v as [| | |[]|s| |]; cbn; try congruence; try (intros [= <-]; eauto).
  destruct (int_of_str w s); [discriminate | intros [= <-]; eauto].
Qed.

Lemma search_filings_requires_corp_code_aux w' self' sd ed dt pc fuel log :
  Dart.search_filings w' self' [] sd ed dt pc fuel log
  = Some (inl (ValueError (py "corp_code is required")), log).
Proof. reflexivity. Qed.

Lemma loop_failure fuel :
  ∀ page filings log e log',
    loop fuel page filings log = Some (inl e, log') → Dart.upstream_failure e.
Proof.
  induction fuel as [|fuel IH]; intros page filings log e log' Hrun; [done|].
  destruct (http_json w (req page)) as [failure|data] eqn:Hhttp.
  { rewrite (loop_transport _ _ _ _ _ _ _ _ _ _ _ _ Hhttp) in Hrun.
    injection Hrun as <- _. left. eauto. }
  destruct (Dart.bad_status (get data (py "status"))) eqn:Hstatus.
  { rewrite (loop_refused _ _ _ _ _ _ _ _ _ _ _ data Hhttp Hstatus) in Hrun.
    injection Hrun as <- _. right. left.
    apply bad_status_spec in Hstatus as [? ?]. eauto. }
  assert (Dart.page_success w self corp_code start_date end_date detail_types
            page_count page data) as Hsucc by done.
  destruct (Dart.page_list data) as [e0|items] eqn:Hlist.
  { rewrite (loop_bad_list _ _ _ _ _ _ _ _ _ _ _ data e0 Hsucc Hlist) in Hrun.
    injection Hrun as <- _. right. right.
    unfold Dart.page_list in Hlist. apply iterate_error in Hlist. eauto. }
  destruct (Dart.declared_total w data) as [e0|total] eqn:Htotal.
  { rewrite (loop_bad_total _ _ _ _ _ _ _ _ _ _ _ data items e0 Hsucc Hlist Htotal) in Hrun.
    injection Hrun as <- _. right. right.
    unfold Dart.declared_total in Htotal. by apply py_int_error in Htotal. }
  assert (Dart.page_ok w self corp_code start_date end_date detail_types
            page_count page items total) as Hok by (by exists data).
  destruct (Z_lt_le_dec page total).
  - rewrite (loop_next _ _ _ _ _ _ _ _ _ _ _ items total Hok) in Hrun by done.
    by apply IH in Hrun.
  - rewrite (loop_last _ _ _ _ _ _ _ _ _ _ _ items total Hok) in Hrun by done.
    discriminate.
Qed.

Lemma search_failure_cases fuel log e log' :
  search fuel log = Some (inl e, log') →
  (corp_code = [] ∧ e = ValueError (py "corp_code is required") ∧ log' = log)
  ∨ (corp_code ≠ [] ∧ Dart.upstream_failure e).
Proof.
  unfold Dart.search_filings. destruct corp_code as [|c s] eqn:Hcode; cbn [nonempty negb].
  - intros [= <- <-]. by left.
  - intros Hrun. right. split; [done|]. rewrite <- Hcode in Hrun.
    by apply loop_failure in Hrun.
Qed.

(** X25: the failures of a search are of two kinds only.  With an empty
    company code it is the validation error and nothing was requested;
    with a non-empty one it is a transport failure, the error of a
    response whose status is neither "000" nor absent, or an error of the
    interpreter on malformed data, and never the validation error. *)
Theorem search_filings_failures fuel log e log' :
  search fuel log = Some (inl e, log') →
  (corp_code = [] ∧ e = ValueError (py "corp_code is required") ∧ log' = log)
  ∨ (corp_code ≠ [] ∧ Dart.upstream_failure e).
Proof. apply search_failure_cases. Qed.

End SearchErrors.

Section SearchErrorExamples.
Import Examples.

Lemma search_filings_failures_witness :
  (py "00126380" = []
   ∧ Transport URLError = ValueError (py "corp_code is required")
   ∧ [request_for 1; request_for 2] = [])
  ∨ (py "00126380" ≠ []
     ∧ Dart.upstream_failure (Transport URLError)).
Proof.
  apply (search_filings_failures page2_down client (py "00126380") (py "20230101")
           (py "20231231") (Some (py "B001,I001")) 100 5 []).
  vm_compute. reflexivity.
Defined.

End SearchErrorExamples.

(* ===================================================================== *)
(** * The failures of an evaluation *)
(* ===================================================================== *)

Section EvaluationErrors.
Context (w : world) (self : Checker.DividendPolicyChecker).

Lemma str_in_error keyword v e : str_in keyword v = inl e → e = Builtin TypeError.
Proof. destruct v; cbn; congruence. Qed.

Lemma any_keyword_in_error keywords v e :
  Checker.any_keyword_in keywords v = inl e → e = Builtin TypeError.
Proof.
  induction keywords as [|keyword rest IH]; cbn [Checker.any_keyword_in]; [discriminate|].
  destruct (str_in keyword v) as [e'|[|]] eqn:E; [|discriminate|done].
  intros [= <-]. by apply str_in_error in E.
Qed.

Lemma select_matches_failure (filings : list pyval) e :
  Checker.select_matches self filings = inl e → ∃ b, e = Builtin b.
Proof.
  induction filings as [|item rest IH]; cbn [Checker.select_matches]; [discriminate|].
  destruct (method_get item _ _) as [e'|report_name] eqn:Hget.
  { intros [= <-]. destruct item; cbn in Hget; try discriminate; injection Hget as <-; eauto. }
  destruct (Checker._matches_policy self report_name) as [e'|hit] eqn:Hmatch.
  { intros [= <-]. apply any_keyword_in_error in Hmatch. eauto. }
  destruct (Checker.select_matches self rest) as [e'|matches]; [|discriminate].
  intros [= <-]. by apply IH.
Qed.

(** X28: an evaluation that fails does so with the validation error, and
    without any request, exactly when the company record has no (or an
    empty) corp_code; otherwise the failure is a transport failure, the
    error of a refused response or an error of the interpreter on
    malformed data. *)
Theorem evaluate_company_failures (corp : dict pystr) fuel log e log' :
  Checker.evaluate_company w self corp fuel log = Some (inl e, log') →
  (opt_truthy (dict_get (py "corp_code") corp) = false
   ∧ e = ValueError (py "corp_code is required") ∧ log' = log)
  ∨ (opt_truthy (dict_get (py "corp_code") corp) = true ∧ Dart.upstream_failure e).
Proof.
  unfold Checker.evaluate_company, bind.
  destruct (Dart.search_filings _ _ _ _ _ _ _ _ _) as [[[e0|filings] l]|] eqn:Hsearch;
    [| |discriminate].
  - intros [= <- <-].
    apply search_failure_cases in Hsearch as [(Hcode & -> & ->) | (Hcode & Hup)].
    + left. split; [|done]. by destruct (dict_get (py "corp_code") corp) as [[|? ?]|].
    + right. split; [|done]. by destruct (dict_get (py "corp_code") corp) as [[|? ?]|].
  - destruct (Checker.select_matches self filings) as [e0|matches] eqn:Hsel;
      cbn [lift]; [|discriminate].
    intros [= <- <-]. right. split.
    + destruct (dict_get (py "corp_code") corp) as [[|? ?]|]; [|done|];
        by rewrite search_filings_requires_corp_code_aux in Hsearch.
    + apply select_matches_failure in Hsel as [b ->]. right. right. eauto.
Qed.

End EvaluationErrors.

Section EvaluationErrorExamples.
Import Examples.

Lemma evaluate_company_failures_witness :
  (opt_truthy (dict_get (py "corp_code") sample_corp) = false
   ∧ Builtin TypeError = ValueError (py "corp_code is required")
   ∧ [request_for 1] = [])
  ∨ (opt_truthy (dict_get (py "corp_code") sample_corp) = true
     ∧ Dart.upstream_failure (Builtin TypeError)).
Proof.
  apply (evaluate_company_failures null_title checker sample_corp 1 []).
  vm_compute. reflexivity.
Defined.

End EvaluationErrorExamples.

(* ===================================================================== *)
(** * The request of a page *)
(* ===================================================================== *)

Section RequestFacts.


End RequestFacts.
